(** * cost-tuuti: the daily AWS cost report (src/lambda_function.py)

    A shallow embedding of the Lambda function that fetches yesterday's
    per-service cost and the monthly forecast from Cost Explorer, formats
    them as Slack blocks and posts them to a webhook with retries.

    - Python [float] is IEEE 754 binary64, modelled with the Standard
      Library's [spec_float] (precision 53, emax 1024).
    - Python [str] is modelled as [string], holding the UTF-8 encoding of
      the text; a line feed is [LF], never an escape.
    - The outside world (environment, Cost Explorer, the webhook, the
      clock) is a record [World]; effects are threaded through a state
      and exception monad whose state is the trace of events. *)

From stdpp Require Import gmap strings.
From Stdlib Require Import ZArith String Ascii List Bool Lia.
From Stdlib Require Import Permutation Sorted.
From Stdlib Require Import Floats.SpecFloat.
Import ListNotations.

Open Scope string_scope.
Open Scope Z_scope.

(** ** Text *)

Module PyStr.

Definition LF : string := String "010"%char EmptyString.
Definition DQUOTE : ascii := "034"%char.

Definition digit_char (d : Z) : ascii := ascii_of_nat (48 + Z.to_nat d).

(** Decimal digits of a non-negative integer, most significant first;
    [fuel] bounds the number of digits. *)
Fixpoint digits_fuel (fuel : nat) (n : Z) (acc : string) : string :=
  match fuel with
  | O => acc
  | S fuel' =>
      let acc' := String (digit_char (n mod 10)) acc in
      if n <? 10 then acc' else digits_fuel fuel' (n / 10) acc'
  end.

Definition str_of_nonneg (n : Z) : string :=
  digits_fuel (S (Z.to_nat (Z.log2 n))) n EmptyString.

(** [str(n)] for an int. *)
Definition str_of_int (n : Z) : string :=
  if n <? 0 then "-" +:+ str_of_nonneg (- n) else str_of_nonneg n.

End PyStr.

(** ** Binary64 floats *)

Module Float64.

Definition prec : Z := 53.
Definition emax : Z := 1024.

Definition float : Type := spec_float.

Definition add : float -> float -> float := SFadd prec emax.
Definition sub : float -> float -> float := SFsub prec emax.
Definition abs : float -> float := SFabs.
Definition ltb : float -> float -> bool := SFltb.
Definition leb : float -> float -> bool := SFleb.
Definition eqb : float -> float -> bool := SFeqb.
(** [x > y] *)
Definition gtb (x y : float) : bool := SFltb y x.
(** [x >= y] *)
Definition geb (x y : float) : bool := SFleb y x.

Definition zero : float := S754_zero false.

Definition is_finite (x : float) : bool :=
  match x with
  | S754_zero _ | S754_finite _ _ _ => true
  | _ => false
  end.

Definition is_nan (x : float) : bool :=
  match x with S754_nan => true | _ => false end.

(** The binary64 nearest to [n / d] (ties to even), with sign [s];
    [0 <= n] and [0 < d]. *)
Definition of_ratio (s : bool) (n d : Z) : float :=
  let '(q, e, l) := SFdiv_core_binary prec emax n 0 d 0 in
  binary_round_aux prec emax s q e l.

(** The binary64 nearest to [m * 10^e], with sign [s]; [0 <= m]. *)
Definition of_decimal (s : bool) (m e : Z) : float :=
  if 0 <=? e then of_ratio s (m * 10 ^ e) 1 else of_ratio s m (10 ^ (- e)).

(** *** [float(str)] *)

Definition is_digit (c : ascii) : bool :=
  let n := nat_of_ascii c in ((48 <=? n) && (n <=? 57))%nat.

Definition digit_val (c : ascii) : Z := Z.of_nat (nat_of_ascii c) - 48.

(** [Py_ISSPACE]: space, [\t], [\n], [\v], [\f], [\r]. *)
Definition is_space (c : ascii) : bool :=
  let n := nat_of_ascii c in ((n =? 32) || ((9 <=? n) && (n <=? 13)))%nat.

Definition to_lower (c : ascii) : ascii :=
  let n := nat_of_ascii c in
  if ((65 <=? n) && (n <=? 90))%nat then ascii_of_nat (n + 32) else c.

Fixpoint lstrip (s : list ascii) : list ascii :=
  match s with
  | c :: s' => if is_space c then lstrip s' else s
  | [] => []
  end.

Definition strip (s : list ascii) : list ascii :=
  rev (lstrip (rev (lstrip s))).

(** Underscores are dropped when each stands between two digits, and
    refuse the literal otherwise; [prev] is the previous character. *)
Fixpoint drop_underscores (prev : option ascii) (s : list ascii)
  : option (list ascii) :=
  let prev_digit := match prev with Some p => is_digit p | None => false end in
  let prev_us := match prev with Some p => Ascii.eqb p "_" | None => false end in
  match s with
  | [] => if prev_us then None else Some []
  | c :: s' =>
      if Ascii.eqb c "_" then
        if prev_digit then drop_underscores (Some c) s' else None
      else if prev_us && negb (is_digit c) then None
      else option_map (cons c) (drop_underscores (Some c) s')
  end.

(** A maximal run of digits: its value continuing [acc], how many digits
    were read, and the rest. *)
Fixpoint read_digits (acc : Z) (cnt : nat) (s : list ascii)
  : Z * nat * list ascii :=
  match s with
  | c :: s' =>
      if is_digit c then read_digits (10 * acc + digit_val c) (S cnt) s'
      else (acc, cnt, s)
  | [] => (acc, cnt, [])
  end.

Definition read_sign (s : list ascii) : bool * list ascii :=
  match s with
  | c :: s' =>
      if Ascii.eqb c "-" then (true, s')
      else if Ascii.eqb c "+" then (false, s')
      else (false, s)
  | [] => (false, [])
  end.

(** The exponent part: [e] or [E], an optional sign and at least one
    digit, up to the end of the literal. *)
Definition read_exponent (s : list ascii) : option Z :=
  match s with
  | [] => Some 0
  | c :: s' =>
      if Ascii.eqb (to_lower c) "e" then
        let '(neg, s'') := read_sign s' in
        match read_digits 0 0 s'' with
        | (_, O, _) => None
        | (v, _, []) => Some (if neg then - v else v)
        | _ => None
        end
      else None
  end.

(** Digits, an optional point and digits (one digit at least), then the
    exponent: mantissa [m] and exponent [e] of the value [m * 10^e]. *)
Definition read_decimal (s : list ascii) : option (Z * Z) :=
  let '(ip, ni, s1) := read_digits 0 0 s in
  let '(m, nf, s2) :=
    match s1 with
    | c :: s1' => if Ascii.eqb c "." then read_digits ip 0 s1' else (ip, O, s1)
    | [] => (ip, O, [])
    end in
  match (ni + nf)%nat with
  | O => None
  | _ => option_map (fun e => (m, e - Z.of_nat nf)) (read_exponent s2)
  end.

Definition lower_string (s : list ascii) : string :=
  string_of_list_ascii (map to_lower s).

(** [float(s)] for a [str] of ASCII characters; [None] is [ValueError]. *)
Definition py_float (s : string) : option float :=
  match drop_underscores None (strip (list_ascii_of_string s)) with
  | None => None
  | Some body =>
      let '(neg, num) := read_sign body in
      let word := lower_string num in
      if String.eqb word "inf" || String.eqb word "infinity"
      then Some (S754_infinity neg)
      else if String.eqb word "nan" then Some S754_nan
      else option_map (fun '(m, e) => of_decimal neg m e) (read_decimal num)
  end.

(** *** [format(x, '.2f')] *)

Definition round_half_even_div (n d : Z) : Z :=
  let q := n / d in
  match 2 * (n mod d) ?= d with
  | Lt => q
  | Gt => q + 1
  | Eq => if Z.even q then q else q + 1
  end.

(** [x * 100] rounded to an integer (ties to even), for positive finite
    [x = m * 2^e]. *)
Definition cents (m : positive) (e : Z) : Z :=
  if 0 <=? e then Z.pos m * 2 ^ e * 100
  else round_half_even_div (Z.pos m * 100) (2 ^ (- e)).

Definition fixed2 (c : Z) : string :=
  PyStr.str_of_nonneg (c / 100) +:+ "." +:+
  String (PyStr.digit_char (c mod 100 / 10))
    (String (PyStr.digit_char (c mod 10)) EmptyString).

Definition format_2f (x : float) : string :=
  match x with
  | S754_nan => "nan"
  | S754_infinity s => if s then "-inf" else "inf"
  | S754_zero s => if s then "-0.00" else "0.00"
  | S754_finite s m e =>
      (if s then "-" else "") +:+ fixed2 (cents m e)
  end.

(** The literal [0.01] of the source. *)
Definition threshold : float := S754_finite false 5764607523034235 (-59).

End Float64.

(** ** JSON text of a string *)

Module Json.

Definition byte_val (c : ascii) : Z := Z.of_nat (nat_of_ascii c).

(** Code points of UTF-8 bytes; a sequence cut short at the end of the
    text is dropped. *)
Fixpoint code_points (bs : list Z) : list Z :=
  match bs with
  | [] => []
  | b0 :: t0 =>
      if b0 <? 128 then b0 :: code_points t0
      else
        match t0 with
        | [] => []
        | b1 :: t1 =>
            if b0 <? 224 then
              Z.lor (Z.shiftl (Z.land b0 31) 6) (Z.land b1 63) :: code_points t1
            else
              match t1 with
              | [] => []
              | b2 :: t2 =>
                  if b0 <? 240 then
                    Z.lor (Z.shiftl (Z.land b0 15) 12)
                      (Z.lor (Z.shiftl (Z.land b1 63) 6) (Z.land b2 63))
                    :: code_points t2
                  else
                    match t2 with
                    | [] => []
                    | b3 :: t3 =>
                        Z.lor (Z.shiftl (Z.land b0 7) 18)
                          (Z.lor (Z.shiftl (Z.land b1 63) 12)
                             (Z.lor (Z.shiftl (Z.land b2 63) 6) (Z.land b3 63)))
                        :: code_points t3
                    end
              end
        end
  end.

Definition hex_digit (d : Z) : ascii :=
  if d <? 10 then ascii_of_nat (48 + Z.to_nat d)
  else ascii_of_nat (87 + Z.to_nat d).

(** [format(n, '04x')] for [0 <= n < 65536]. *)
Definition hex4 (n : Z) : string :=
  String (hex_digit (Z.shiftr n 12 mod 16))
    (String (hex_digit (Z.shiftr n 8 mod 16))
       (String (hex_digit (Z.shiftr n 4 mod 16))
          (String (hex_digit (n mod 16)) EmptyString))).

Definition backslash (s : string) : string := String "092"%char s.

(** One code point, as [json.encoder.py_encode_basestring_ascii]
    replaces it. *)
Definition escape (n : Z) : string :=
  if n =? 92 then backslash (backslash "")
  else if n =? 34 then backslash (String PyStr.DQUOTE "")
  else if n =? 8 then backslash "b"
  else if n =? 12 then backslash "f"
  else if n =? 10 then backslash "n"
  else if n =? 13 then backslash "r"
  else if n =? 9 then backslash "t"
  else if (32 <=? n) && (n <=? 126) then String (ascii_of_nat (Z.to_nat n)) ""
  else if n <? 65536 then backslash ("u" +:+ hex4 n)
  else
    let n' := n - 65536 in
    let s1 := Z.lor 55296 (Z.land (Z.shiftr n' 10) 1023) in
    let s2 := Z.lor 56320 (Z.land n' 1023) in
    backslash ("u" +:+ hex4 s1) +:+ backslash ("u" +:+ hex4 s2).

(** [json.dumps(s)] for a [str], with the default [ensure_ascii]. *)
Definition dumps (s : string) : string :=
  String PyStr.DQUOTE
    (fold_right (fun n acc => escape n +:+ acc)
       (String PyStr.DQUOTE "")
       (code_points (map byte_val (list_ascii_of_string s)))).

End Json.

(** ** Exceptions, events and the effect monad *)

(** The [Exception] subclasses the program meets. [ClientError] carries
    [response['Error']['Code']]; every constructor but [KeyError] carries
    the text [str(e)] gives. *)
Inductive exn : Type :=
| ClientError (code text : string)
| RequestException (text : string)
| KeyError (key : string)
| IndexError (text : string)
| ValueError (text : string)
| OtherException (text : string).

(** [str(e)]; a [KeyError] shows the [repr] of its key, written here for a
    key with no quote or backslash in it. *)
Definition str_exn (e : exn) : string :=
  match e with
  | ClientError _ text => text
  | RequestException text => text
  | KeyError key => "'" +:+ key +:+ "'"
  | IndexError text => text
  | ValueError text => text
  | OtherException text => text
  end.

Definition is_RequestException (e : exn) : bool :=
  match e with RequestException _ => true | _ => false end.

Inductive outcome (A : Type) : Type :=
| Return (a : A)
| Raise (e : exn).
Arguments Return {A} a.
Arguments Raise {A} e.

(** *** Slack messages *)

Inductive TextObject : Type :=
| plain_text (text : string) (emoji : bool)
| mrkdwn (text : string).

Inductive Block : Type :=
| header (text : TextObject)
| section_fields (fields : list TextObject)
| divider
| section_text (text : TextObject).

Record Message : Type := { blocks : list Block }.

(** *** Cost Explorer responses *)

Record MetricValue : Type := { Amount : string; Unit : string }.
Record Group : Type := { Keys : list string; UnblendedCost : MetricValue }.
Record ResultByTime : Type := { Groups : list Group }.
Record CostAndUsage : Type := { ResultsByTime : list ResultByTime }.
Record Forecast : Type := { Total : MetricValue }.
Record CostData : Type := { daily_cost : CostAndUsage; forecast : Forecast }.

(** *** HTTP responses *)

Record Response : Type := { status_code : Z; reason : string; url : string }.

(** *** Events and the world *)

Inductive event : Type :=
| EvGetCostAndUsage
| EvGetCostForecast
| EvPost (webhook_url : string) (json : Message)
| EvSleep (seconds : Z)
| EvPrint (text : string).

Definition trace : Type := list event.

(** What the function meets when it runs. [post_result n url m] is what
    the [n]-th call of [requests.post] of the invocation does ([n] counts
    from 0): a response, or an exception. The time periods of the two Cost
    Explorer requests are computed from the clock and are left out. *)
Record World : Type := {
  environ : gmap string string;
  (** [datetime.now().strftime('%Y-%m-%d')] *)
  now_date : string;
  (** the built-in [sum] adds floats with Neumaier's compensation
      (CPython 3.12 and later) or one after the other (before) *)
  compensated_sum : bool;
  (** [boto3.client('ce')] *)
  ce_client : outcome unit;
  ce_cost_and_usage : outcome CostAndUsage;
  ce_cost_forecast : outcome Forecast;
  post_result : nat -> string -> Message -> outcome Response
}.

(** A computation reads the trace so far and extends it. *)
Definition M (A : Type) : Type := trace -> outcome A * trace.

Definition ret {A} (a : A) : M A := fun t => (Return a, t).
Definition raise {A} (e : exn) : M A := fun t => (Raise e, t).
Definition bind {A B} (m : M A) (k : A -> M B) : M B :=
  fun t => match m t with
           | (Return a, t') => k a t'
           | (Raise e, t') => (Raise e, t')
           end.
(** [try: m except Exception as e: h e] *)
Definition try_except {A} (m : M A) (h : exn -> M A) : M A :=
  fun t => match m t with
           | (Return a, t') => (Return a, t')
           | (Raise e, t') => h e t'
           end.
Definition emit (ev : event) : M unit := fun t => (Return tt, (t ++ [ev])%list).
Definition lift {A} (o : outcome A) : M A := fun t => (o, t).

Notation "'do' x <- m ; k" := (bind m (fun x => k))
  (at level 10, x name, m at level 100, k at level 200).
Notation "m ;; k" := (bind m (fun _ => k))
  (at level 100, k at level 200, right associativity).

Definition print (text : string) : M unit := emit (EvPrint text).
Definition time_sleep (seconds : Z) : M unit := emit (EvSleep seconds).

Definition is_post (ev : event) : bool :=
  match ev with EvPost _ _ => true | _ => false end.

Definition is_sleep (ev : event) : bool :=
  match ev with EvSleep _ => true | _ => false end.

(** How many POSTs, and how many sleeps, a trace holds. *)
Definition count_posts (t : trace) : nat := List.length (List.filter is_post t).

Definition count_sleeps (t : trace) : nat := List.length (List.filter is_sleep t).

(** [requests.post(webhook_url, json=message)] *)
Definition requests_post (w : World) (webhook_url : string) (message : Message)
  : M Response :=
  fun t => (post_result w (count_posts t) webhook_url message,
            (t ++ [EvPost webhook_url message])%list).

(** [response.raise_for_status()]: its message is empty unless the status
    is from 400 to 599, and it raises an [HTTPError], which is a
    [RequestException], when the message is not empty. *)
Definition http_error_msg (response : Response) : string :=
  let status := status_code response in
  if (400 <=? status) && (status <? 500) then
    PyStr.str_of_int status +:+ " Client Error: " +:+ reason response
    +:+ " for url: " +:+ url response
  else if (500 <=? status) && (status <? 600) then
    PyStr.str_of_int status +:+ " Server Error: " +:+ reason response
    +:+ " for url: " +:+ url response
  else "".

Definition raise_for_status (response : Response) : M unit :=
  let msg := http_error_msg response in
  if String.eqb msg "" then ret tt else raise (RequestException msg).

(** [os.environ[key]] *)
Definition os_environ (w : World) (key : string) : M string :=
  match environ w !! key with
  | Some v => ret v
  | None => raise (KeyError key)
  end.

(** Binding in [outcome], for code that raises and has no other effect. *)
Definition obind {A B} (o : outcome A) (k : A -> outcome B) : outcome B :=
  match o with
  | Return a => k a
  | Raise e => Raise e
  end.

Notation "'let?' x := o 'in' k" := (obind o (fun x => k))
  (at level 10, x name, o at level 100, k at level 200).

(** ** The program *)

(** [l[0]] *)
Definition index0 {A} (l : list A) : outcome A :=
  match l with
  | x :: _ => Return x
  | [] => Raise (IndexError "list index out of range")
  end.

(** [float(s)]; the text of the [ValueError] shows the [repr] of [s],
    written here for a literal with no quote or backslash in it. *)
Definition float_of_str (s : string) : outcome Float64.float :=
  match Float64.py_float s with
  | Some x => Return x
  | None => Raise (ValueError ("could not convert string to float: '" +:+ s +:+ "'"))
  end.

(** [range(n)] *)
Definition py_range (n : Z) : list Z := map Z.of_nat (seq 0 (Z.to_nat n)).

(** *** The built-in [sum] over floats, from the int [0] *)

Definition sum_plain (xs : list Float64.float) : Float64.float :=
  fold_left Float64.add xs Float64.zero.

Fixpoint sum_neumaier (f_result c : Float64.float) (xs : list Float64.float)
  : Float64.float :=
  match xs with
  | [] =>
      if negb (Float64.eqb c Float64.zero) && Float64.is_finite c
      then Float64.add f_result c
      else f_result
  | x :: xs' =>
      let t := Float64.add f_result x in
      let c' :=
        if Float64.geb (Float64.abs f_result) (Float64.abs x)
        then Float64.add c (Float64.add (Float64.sub f_result t) x)
        else Float64.add c (Float64.add (Float64.sub x t) f_result) in
      sum_neumaier t c' xs'
  end.

Definition sum_compensated (xs : list Float64.float) : Float64.float :=
  match xs with
  | [] => Float64.zero
  | x :: xs' => sum_neumaier (Float64.add Float64.zero x) Float64.zero xs'
  end.

(** [float(sum(xs))] *)
Definition py_sum (w : World) (xs : list Float64.float) : Float64.float :=
  if compensated_sum w then sum_compensated xs else sum_plain xs.

(** *** [list.sort(key=lambda x: x[1], reverse=True)]

    The sort is stable and compares keys with [<] alone; with
    [reverse=True] the result is descending and equal keys keep their
    order. On keys that [<] orders totally there is one such result, and
    an insertion sort computes it. *)

Definition CostRecord : Type := string * Float64.float.

Fixpoint insert_desc (x : CostRecord) (l : list CostRecord) : list CostRecord :=
  match l with
  | [] => [x]
  | y :: l' =>
      if Float64.ltb (snd x) (snd y) then y :: insert_desc x l' else x :: l
  end.

Definition sort_by_amount_desc (l : list CostRecord) : list CostRecord :=
  fold_right insert_desc [] l.

(** *** get_cost_data *)

Definition unavailable_forecast : Forecast :=
  {| Total := {| Amount := "N/A"; Unit := "USD" |} |}.

Definition get_cost_data (w : World) : M CostData :=
  lift (ce_client w) ;;
  try_except
    (do response <- (emit EvGetCostAndUsage ;; lift (ce_cost_and_usage w));
     do forecast_response <-
       try_except
         (emit EvGetCostForecast ;; lift (ce_cost_forecast w))
         (fun e =>
            match e with
            | ClientError code _ =>
                if String.eqb code "DataUnavailableException" then
                  print "予測データが利用できません。現在のコストのみ表示します。" ;;
                  ret unavailable_forecast
                else raise e
            | _ => raise e
            end);
     ret {| daily_cost := response; forecast := forecast_response |})
    (fun e => print ("Unexpected error: " +:+ str_exn e) ;; raise e).

(** *** format_cost_message *)

(** The loop over [daily_costs['Groups']], appending to [service_costs]. *)
Fixpoint collect_service_costs (groups : list Group) (service_costs : list CostRecord)
  : outcome (list CostRecord) :=
  match groups with
  | [] => Return service_costs
  | group :: groups' =>
      let? service := index0 (Keys group) in
      let? amount := float_of_str (Amount (UnblendedCost group)) in
      if Float64.gtb amount Float64.threshold
      then collect_service_costs groups' (service_costs ++ [(service, amount)])%list
      else collect_service_costs groups' service_costs
  end.

Definition service_line (text : string) (cost : CostRecord) : string :=
  let '(service, amount) := cost in
  text +:+ "• " +:+ service +:+ ": $" +:+ Float64.format_2f amount +:+ PyStr.LF.

Definition format_cost_message (w : World) (cost_data : CostData) : outcome Message :=
  let? daily_costs := index0 (ResultsByTime (daily_cost cost_data)) in
  let forecast := forecast cost_data in
  let? service_costs := collect_service_costs (Groups daily_costs) [] in
  let service_costs := sort_by_amount_desc service_costs in
  let forecast_amount := Amount (Total forecast) in
  let? forecast_display :=
    if String.eqb forecast_amount "N/A" then Return "データ不足"
    else let? x := float_of_str forecast_amount in
         Return ("$" +:+ Float64.format_2f x) in
  let blocks :=
    [ header (plain_text ("AWS利用料金レポート (" +:+ now_date w +:+ ")") true);
      section_fields
        [ mrkdwn ("*昨日の総利用料金:*" +:+ PyStr.LF +:+ "$"
                  +:+ Float64.format_2f (py_sum w (map snd service_costs)));
          mrkdwn ("*今月の予測総額:*" +:+ PyStr.LF +:+ forecast_display) ];
      divider ] in
  let service_cost_text :=
    fold_left service_line (firstn 10 service_costs) ("*サービス別内訳:*" +:+ PyStr.LF) in
  Return {| blocks := (blocks ++ [section_text (mrkdwn service_cost_text)])%list |}.

(** *** notify_slack *)

(** The [for attempt in range(retry_count)] loop, over the attempts still
    to make; it falls through, and the function returns [None], when none
    is left. *)
Fixpoint notify_loop (w : World) (webhook_url : string) (message : Message)
    (retry_count : Z) (attempts : list Z) : M (option Response) :=
  match attempts with
  | [] => ret None
  | attempt :: attempts' =>
      try_except
        (do response <- requests_post w webhook_url message;
         raise_for_status response ;;
         ret (Some response))
        (fun e =>
           if is_RequestException e then
             if attempt =? retry_count - 1 then
               print ("Failed to send Slack notification after "
                      +:+ PyStr.str_of_int retry_count +:+ " attempts: " +:+ str_exn e) ;;
               raise e
             else
               print ("Retry " +:+ PyStr.str_of_int (attempt + 1) +:+ "/"
                      +:+ PyStr.str_of_int retry_count +:+ " failed: " +:+ str_exn e) ;;
               time_sleep 1 ;;
               notify_loop w webhook_url message retry_count attempts'
           else raise e)
  end.

Definition notify_slack (w : World) (message : Message) (retry_count : Z)
  : M (option Response) :=
  do webhook_url <- os_environ w "SLACK_WEBHOOK_URL";
  notify_loop w webhook_url message retry_count (py_range retry_count).

(** The default [retry_count=3]. *)
Definition default_retry_count : Z := 3.

(** *** lambda_handler *)

Record LambdaResult : Type := { statusCode : Z; body : string }.

Definition error_notification (error_message : string) : Message :=
  {| blocks :=
       [ section_text
           (mrkdwn ("*AWS Cost Notification Error*" +:+ PyStr.LF +:+ error_message)) ] |}.

(** The body of the handler's [try]. *)
Definition pipeline (w : World) : M LambdaResult :=
  do cost_data <- get_cost_data w;
  do message <- lift (format_cost_message w cost_data);
  notify_slack w message default_retry_count ;;
  ret {| statusCode := 200;
         body := Json.dumps "Cost notification sent successfully!" |}.

Definition lambda_handler {E C : Type} (w : World) (event : E) (context : C)
  : M LambdaResult :=
  try_except (pipeline w)
    (fun e =>
       let error_message := "Error occurred: " +:+ str_exn e in
       print error_message ;;
       try_except
         (notify_slack w (error_notification error_message) default_retry_count ;;
          ret tt)
         (fun _ => print "Failed to send error notification to Slack") ;;
       ret {| statusCode := 500; body := Json.dumps error_message |}).

(** ** Notions the properties are stated with *)

(** *** Of the report *)

(** The record of a group: its first key and its amount as a float. *)
Definition group_record (g : Group) : option CostRecord :=
  match Keys g, Float64.py_float (Amount (UnblendedCost g)) with
  | service :: _, Some amount => Some (service, amount)
  | _, _ => None
  end.

(** The records of all groups, when each group has one. *)
Fixpoint group_records (groups : list Group) : option (list CostRecord) :=
  match groups with
  | [] => Some []
  | g :: groups' =>
      match group_record g, group_records groups' with
      | Some r, Some rs => Some (r :: rs)
      | _, _ => None
      end
  end.

Definition above_threshold (r : CostRecord) : bool :=
  Float64.gtb (snd r) Float64.threshold.

(** The records that are kept, in the order of the response. *)
Definition kept (records : list CostRecord) : list CostRecord :=
  List.filter above_threshold records.

(** How a forecast is displayed, when its amount is the sentinel or a
    float literal. *)
Definition forecast_display (f : Forecast) : option string :=
  if String.eqb (Amount (Total f)) "N/A" then Some "データ不足"
  else option_map (fun x => "$" +:+ Float64.format_2f x)
         (Float64.py_float (Amount (Total f))).

(** A response the formatter takes without raising: one bucket at least,
    whose groups have the records [records], and a forecast displayed as
    [display]. *)
Definition well_formed (cost_data : CostData) (records : list CostRecord)
    (display : string) : Prop :=
  exists bucket rest,
    ResultsByTime (daily_cost cost_data) = bucket :: rest /\
    group_records (Groups bucket) = Some records /\
    forecast_display (forecast cost_data) = Some display.

Definition item_line (r : CostRecord) : string :=
  "• " +:+ fst r +:+ ": $" +:+ Float64.format_2f (snd r) +:+ PyStr.LF.

(** The text of the itemized section that lists [shown], a line each. *)
Definition itemized (shown : list CostRecord) : string :=
  "*サービス別内訳:*" +:+ PyStr.LF
  +:+ fold_right (fun r rest => item_line r +:+ rest) "" shown.

Definition total_line (total : Float64.float) : string :=
  "*昨日の総利用料金:*" +:+ PyStr.LF +:+ "$" +:+ Float64.format_2f total.

Definition forecast_line (display : string) : string :=
  "*今月の予測総額:*" +:+ PyStr.LF +:+ display.

(** The message that reports the ranked records [ranked] and the forecast
    [display]: the total of all of [ranked], and its first ten itemized. *)
Definition report (w : World) (ranked : list CostRecord) (display : string) : Message :=
  {| blocks :=
       [ header (plain_text ("AWS利用料金レポート (" +:+ now_date w +:+ ")") true);
         section_fields
           [ mrkdwn (total_line (py_sum w (map snd ranked)));
             mrkdwn (forecast_line display) ];
         divider;
         section_text (mrkdwn (itemized (firstn 10 ranked))) ] |}.

(** The fields a message displays: the total and the forecast of the
    summary block, and the text of the itemized block. *)
Definition total_field (m : Message) : option string :=
  match blocks m with
  | [header _; section_fields [mrkdwn t; mrkdwn _]; divider; section_text _] => Some t
  | _ => None
  end.

Definition forecast_field (m : Message) : option string :=
  match blocks m with
  | [header _; section_fields [mrkdwn _; mrkdwn t]; divider; section_text _] => Some t
  | _ => None
  end.

Definition itemized_text (m : Message) : option string :=
  match blocks m with
  | [header _; section_fields _; divider; section_text (mrkdwn t)] => Some t
  | _ => None
  end.

Definition not_nan (r : CostRecord) : Prop := Float64.is_nan (snd r) = false.

(** Descending by amount. *)
Definition descending (l : list CostRecord) : Prop :=
  StronglySorted (fun x y => Float64.geb (snd x) (snd y) = true) l.

Definition same_amount (v : Float64.float) (r : CostRecord) : bool :=
  Float64.eqb (snd r) v.

(** [l'] keeps the records of equal amount in the order they have in [l]. *)
Definition ties_in_order (l l' : list CostRecord) : Prop :=
  forall v, List.filter (same_amount v) l' = List.filter (same_amount v) l.

(** A text of digits alone. *)
Fixpoint all_digits (s : string) : bool :=
  match s with
  | EmptyString => true
  | String c rest => Float64.is_digit c && all_digits rest
  end.

(** Digits, a point and two digits. *)
Fixpoint is_fixed2 (seen_digit : bool) (s : string) : bool :=
  match s with
  | EmptyString => false
  | String c rest =>
      if Float64.is_digit c then is_fixed2 true rest
      else if Ascii.eqb c "." then
        seen_digit &&
        match rest with
        | String d1 (String d2 EmptyString) => Float64.is_digit d1 && Float64.is_digit d2
        | _ => false
        end
      else false
  end.

(** A dollar sign, a minus sign or none, and an amount with two decimal
    places. *)
Definition is_dollar_amount (s : string) : bool :=
  match s with
  | String c rest =>
      Ascii.eqb c "$" &&
      match rest with
      | String c' rest' => if Ascii.eqb c' "-" then is_fixed2 false rest' else is_fixed2 false rest
      | EmptyString => false
      end
  | EmptyString => false
  end.

(** [needle] occurs in [s]. *)
Fixpoint contains (needle s : string) : bool :=
  String.prefix needle s ||
  match s with
  | String _ rest => contains needle rest
  | EmptyString => false
  end.

(** A group of one service. *)
Definition service_group (service amount : string) : Group :=
  {| Keys := [service]; UnblendedCost := {| Amount := amount; Unit := "USD" |} |}.

(** The response of the scenario: A at 12.50, B at 0.004 and C at 7.25. *)
Definition scenario_groups : list Group :=
  [ service_group "A" "12.50"; service_group "B" "0.004"; service_group "C" "7.25" ].

(** The records of the scenario that are kept, ranked. *)
Definition scenario_ranked : list CostRecord :=
  [ ("A", Float64.of_decimal false 1250 (-2)); ("C", Float64.of_decimal false 725 (-2)) ].

(** *** Of the notifier *)

(** What an attempt yields when it is the [n]-th POST of the invocation:
    the response, or the exception of [requests.post] or of
    [raise_for_status]. *)
Definition attempt_outcome (w : World) (n : nat) (webhook_url : string)
    (message : Message) : outcome Response :=
  match post_result w n webhook_url message with
  | Return response =>
      if String.eqb (http_error_msg response) "" then Return response
      else Raise (RequestException (http_error_msg response))
  | Raise e => Raise e
  end.

(** The attempts from the [n]-th POST on fail with request exceptions of
    the texts [errs], one after the other. *)
Fixpoint attempts_fail (w : World) (n : nat) (webhook_url : string)
    (message : Message) (errs : list string) : Prop :=
  match errs with
  | [] => True
  | err :: errs' =>
      attempt_outcome w n webhook_url message = Raise (RequestException err) /\
      attempts_fail w (S n) webhook_url message errs'
  end.

(** The events of failed attempts number [first], [first + 1], ... that
    are followed by another attempt: the POST, the log line and the
    backoff of each. *)
Fixpoint backoff_events (webhook_url : string) (message : Message)
    (retry_count first : Z) (errs : list string) : trace :=
  match errs with
  | [] => []
  | err :: errs' =>
      EvPost webhook_url message
      :: EvPrint ("Retry " +:+ PyStr.str_of_int (first + 1) +:+ "/"
                  +:+ PyStr.str_of_int retry_count +:+ " failed: " +:+ err)
      :: EvSleep 1
      :: backoff_events webhook_url message retry_count (first + 1) errs'
  end.

(** What the events [evs] of one call of the notifier obey: no more POSTs
    than [retry_count], a backoff of one second between two POSTs and
    nowhere else, so none after the last POST. *)
Definition retry_discipline (retry_count : Z) (evs : trace) : Prop :=
  (count_posts evs <= Z.to_nat retry_count)%nat /\
  count_sleeps evs = (count_posts evs - 1)%nat /\
  Forall (fun ev => is_sleep ev = true -> ev = EvSleep 1) evs /\
  (forall evs' ev, evs = (evs' ++ [ev])%list -> is_sleep ev = false).

(** *** Of the handler *)

Definition success_result : LambdaResult :=
  {| statusCode := 200;
     body := String PyStr.DQUOTE
               ("Cost notification sent successfully!" +:+ String PyStr.DQUOTE "") |}.

Definition error_message_of (e : exn) : string := "Error occurred: " +:+ str_exn e.

Definition failure_result (e : exn) : LambdaResult :=
  {| statusCode := 500; body := Json.dumps (error_message_of e) |}.

(** Fetch, format and notify all succeed from the trace [t0], and leave
    the trace [t1]. *)
Inductive stages_succeed (w : World) (t0 t1 : trace) : Prop :=
| all_succeed cost_data message response t :
    get_cost_data w t0 = (Return cost_data, t) ->
    format_cost_message w cost_data = Return message ->
    notify_slack w message default_retry_count t = (Return response, t1) ->
    stages_succeed w t0 t1.

(** One of fetch, format and notify raises [e] from the trace [t0], the
    stages before it having succeeded, and leaves the trace [t1]. *)
Inductive stage_raises (w : World) (t0 : trace) (e : exn) (t1 : trace) : Prop :=
| fetch_raises :
    get_cost_data w t0 = (Raise e, t1) ->
    stage_raises w t0 e t1
| format_raises cost_data :
    get_cost_data w t0 = (Return cost_data, t1) ->
    format_cost_message w cost_data = Raise e ->
    stage_raises w t0 e t1
| notify_raises cost_data message t :
    get_cost_data w t0 = (Return cost_data, t) ->
    format_cost_message w cost_data = Return message ->
    notify_slack w message default_retry_count t = (Raise e, t1) ->
    stage_raises w t0 e t1.

(** The trace after the error [e] was logged at [t1] and one error
    notification was attempted; its failure adds a log line. *)
Definition trace_after_error (w : World) (e : exn) (t1 : trace) : trace :=
  let t2 := (t1 ++ [EvPrint (error_message_of e)])%list in
  match notify_slack w (error_notification (error_message_of e)) default_retry_count t2 with
  | (Return _, t3) => t3
  | (Raise _, t3) => (t3 ++ [EvPrint "Failed to send error notification to Slack"])%list
  end.

(** *** Sample worlds and responses *)

Definition sample_url : string := "https://hooks.slack.example/services/T000/B000".

Definition ok_response : Response :=
  {| status_code := 200; reason := "OK"; url := sample_url |}.

Definition server_error_response : Response :=
  {| status_code := 500; reason := "Internal Server Error"; url := sample_url |}.

Definition sample_forecast : Forecast :=
  {| Total := {| Amount := "123.456"; Unit := "USD" |} |}.

Definition daily_of (groups : list Group) : CostAndUsage :=
  {| ResultsByTime := [ {| Groups := groups |} ] |}.

(** A world with the webhook configured, where Cost Explorer answers
    [daily] and [fc] and the [n]-th POST does [posts n]. *)
Definition sample_world (daily : CostAndUsage) (fc : outcome Forecast)
    (posts : nat -> outcome Response) : World :=
  {| environ := {[ "SLACK_WEBHOOK_URL" := sample_url ]};
     now_date := "2024-05-01";
     compensated_sum := true;
     ce_client := Return tt;
     ce_cost_and_usage := Return daily;
     ce_cost_forecast := fc;
     post_result := fun n _ _ => posts n |}.

(** The same world with no webhook configured. *)
Definition unconfigured_world (daily : CostAndUsage) (fc : outcome Forecast)
    (posts : nat -> outcome Response) : World :=
  {| environ := ∅;
     now_date := "2024-05-01";
     compensated_sum := false;
     ce_client := Return tt;
     ce_cost_and_usage := Return daily;
     ce_cost_forecast := fc;
     post_result := fun n _ _ => posts n |}.

(** Two services at 5 dollars around one at 7.25, and one below the
    threshold. *)
Definition tied_groups : list Group :=
  [ service_group "X" "5.00"; service_group "Y" "7.25";
    service_group "W" "0.001"; service_group "Z" "5.0" ].

(** Twelve services, at 1 to 12 dollars. *)
Definition twelve_groups : list Group :=
  [ service_group "S01" "1.00"; service_group "S02" "2.00";
    service_group "S03" "3.00"; service_group "S04" "4.00";
    service_group "S05" "5.00"; service_group "S06" "6.00";
    service_group "S07" "7.00"; service_group "S08" "8.00";
    service_group "S09" "9.00"; service_group "S10" "10.00";
    service_group "S11" "11.00"; service_group "S12" "12.00" ].

(** The records of a list of groups, or none. *)
Definition records_of (groups : list Group) : list CostRecord :=
  match group_records groups with Some rs => rs | None => [] end.

(** A world where the forecast query raises the data-unavailable error
    and the webhook accepts the POST, and the cost data fetched there. *)
Definition unavailable_text : string :=
  "An error occurred (DataUnavailableException) when calling the GetCostForecast operation: Insufficient amount of historical data".

Definition unavailable_error : exn :=
  ClientError "DataUnavailableException" unavailable_text.

Definition unavailable_world : World :=
  sample_world (daily_of scenario_groups) (Raise unavailable_error)
    (fun _ => Return ok_response).

Definition unavailable_data : CostData :=
  {| daily_cost := daily_of scenario_groups; forecast := unavailable_forecast |}.

Definition sample_data (groups : list Group) : CostData :=
  {| daily_cost := daily_of groups; forecast := sample_forecast |}.

(** Cost Explorer answers and the webhook accepts every POST. *)
Definition steady_world (groups : list Group) : World :=
  sample_world (daily_of groups) (Return sample_forecast) (fun _ => Return ok_response).

(** The webhook answers 500 to every POST. *)
Definition failing_world : World :=
  sample_world (daily_of scenario_groups) (Return sample_forecast)
    (fun _ => Return server_error_response).

(** The webhook answers 500 twice and accepts the third POST. *)
Definition flaky_world : World :=
  sample_world (daily_of scenario_groups) (Return sample_forecast)
    (fun n => if (n <? 2)%nat then Return server_error_response else Return ok_response).

(** The webhook answers 500 once; the second POST raises an exception
    that is no request exception. *)
Definition broken_world : World :=
  sample_world (daily_of scenario_groups) (Return sample_forecast)
    (fun n => if (n <? 1)%nat then Return server_error_response
              else Raise (OtherException "maximum recursion depth exceeded")).

Definition access_denied : exn :=
  ClientError "AccessDeniedException"
    "An error occurred (AccessDeniedException) when calling the GetCostAndUsage operation: not authorized".

Definition throttled : exn :=
  ClientError "ThrottlingException"
    "An error occurred (ThrottlingException) when calling the GetCostForecast operation: Rate exceeded".

(** The daily-cost query is refused. *)
Definition denied_world : World :=
  {| environ := {[ "SLACK_WEBHOOK_URL" := sample_url ]};
     now_date := "2024-05-01";
     compensated_sum := false;
     ce_client := Return tt;
     ce_cost_and_usage := Raise access_denied;
     ce_cost_forecast := Return sample_forecast;
     post_result := fun _ _ _ => Return ok_response |}.

(** The forecast query is throttled. *)
Definition throttled_world : World :=
  sample_world (daily_of scenario_groups) (Raise throttled) (fun _ => Return ok_response).

Definition server_error_text : string := http_error_msg server_error_response.

(** The forecast field of the message the formatter returns, if any. *)
Definition forecast_shown (w : World) (cost_data : CostData) : option string :=
  match format_cost_message w cost_data with
  | Return message => forecast_field message
  | Raise _ => None
  end.

(** *** Of the further properties *)

(** An event a call of the notifier may add: a POST of its payload to its
    URL, a backoff of one second, or a log line. *)
Definition notifier_event (webhook_url : string) (message : Message) (ev : event)
  : Prop :=
  ev = EvPost webhook_url message \/ ev = EvSleep 1 \/ exists text, ev = EvPrint text.

Definition is_cost_query (ev : event) : bool :=
  match ev with EvGetCostAndUsage => true | _ => false end.

Definition is_forecast_query (ev : event) : bool :=
  match ev with EvGetCostForecast => true | _ => false end.

Definition count_cost_queries (t : trace) : nat :=
  List.length (List.filter is_cost_query t).

Definition count_forecast_queries (t : trace) : nat :=
  List.length (List.filter is_forecast_query t).


(** A POST among [evs] carries the payload [message]. *)
Definition posts_carry (message : Message) (evs : trace) : Prop :=
  Forall (fun ev => is_post ev = true -> exists webhook_url, ev = EvPost webhook_url message)
    evs.

(** The events [evs] hold no more POSTs, sleeps, daily-cost queries and
    forecast queries than the four bounds, and each sleep is of one
    second. *)
Definition trace_within (posts sleeps cost_queries forecast_queries : nat)
    (evs : trace) : Prop :=
  (count_posts evs <= posts)%nat /\
  (count_sleeps evs <= sleeps)%nat /\
  (count_cost_queries evs <= cost_queries)%nat /\
  (count_forecast_queries evs <= forecast_queries)%nat /\
  Forall (fun ev => is_sleep ev = true -> ev = EvSleep 1) evs.

(** The scenario with its groups in the opposite order. *)
Definition scenario_groups_reversed : list Group :=
  [ service_group "C" "7.25"; service_group "B" "0.004"; service_group "A" "12.50" ].

(** Services below the threshold alone. *)
Definition noise_groups : list Group :=
  [ service_group "Tax" "0.00"; service_group "KMS" "0.0003";
    service_group "Refund" "-4.20"; service_group "S3" "0.01" ].

(** The webhook answers 304 to every POST. *)
Definition not_modified_response : Response :=
  {| status_code := 304; reason := "Not Modified"; url := sample_url |}.

Definition not_modified_world : World :=
  sample_world (daily_of scenario_groups) (Return sample_forecast)
    (fun _ => Return not_modified_response).




(** ** Facts about the float order *)

Module Float64Facts.
Import Float64.

Ltac cmp_cases :=
  repeat match goal with
    | |- context [Z.compare ?a ?b] => destruct (Z.compare_spec a b)
    | |- context [Pos.compare ?a ?b] => destruct (Pos.compare_spec a b)
    | H : context [Z.compare ?a ?b] |- _ => destruct (Z.compare_spec a b)
    | H : context [Pos.compare ?a ?b] |- _ => destruct (Pos.compare_spec a b)
    end.

Ltac float_order :=
  unfold geb, gtb, leb, ltb, eqb, SFleb, SFltb, SFeqb, SFcompare;
  change (Pos.compare_cont Eq) with Pos.compare;
  intros;
  repeat match goal with
    | x : float |- _ => destruct x as [[]|[]| |[] ? ?]
    | x : spec_float |- _ => destruct x as [[]|[]| |[] ? ?]
    end;
  simpl in *; try congruence; try reflexivity;
  cmp_cases; simpl in *; subst; try congruence; try lia.

Lemma leb_trans (x y z : float) :
  leb x y = true -> leb y z = true -> leb x z = true.
Proof. float_order. Qed.

Lemma geb_trans (x y z : float) :
  geb x y = true -> geb y z = true -> geb x z = true.
Proof. unfold geb. intros Hxy Hyz. exact (leb_trans z y x Hyz Hxy). Qed.

Lemma ltb_false_geb (x y : float) :
  is_nan x = false -> is_nan y = false -> ltb x y = false -> geb x y = true.
Proof. unfold is_nan. float_order. Qed.

Lemma ltb_geb (x y : float) : ltb x y = true -> geb y x = true.
Proof. float_order. Qed.

Lemma ltb_not_geb (x y : float) : ltb x y = true -> geb x y = false.
Proof. float_order. Qed.

Lemma eqb_eqb_not_ltb (x y v : float) :
  eqb x v = true -> eqb y v = true -> ltb x y = false.
Proof. float_order. Qed.

Lemma gtb_not_nan (x y : float) : gtb x y = true -> is_nan x = false.
Proof. unfold is_nan. float_order. Qed.

Lemma leb_not_gtb (x y : float) : leb x y = true -> gtb x y = false.
Proof. float_order. Qed.

Lemma eqb_gtb (x v t : float) :
  eqb x v = true -> gtb v t = true -> gtb x t = true.
Proof. float_order. Qed.

Lemma eqb_refl (x : float) : is_nan x = false -> eqb x x = true.
Proof. unfold is_nan. float_order. Qed.

Lemma geb_refl (x : float) : is_nan x = false -> geb x x = true.
Proof. unfold is_nan. float_order. Qed.

Lemma geb_geb_eqb (x y : float) :
  geb x y = true -> geb y x = true -> eqb x y = true.
Proof. float_order. Qed.

(** The threshold is the float of the literal. *)
Lemma threshold_literal : py_float "0.01" = Some threshold.
Proof. vm_compute. reflexivity. Qed.

End Float64Facts.

(** ** Facts about text *)

Module PyStrFacts.
Import PyStr.

Lemma append_cons (c : ascii) (a b : string) :
  String c a +:+ b = String c (a +:+ b).
Proof. reflexivity. Qed.

Lemma append_empty_l (a : string) : "" +:+ a = a.
Proof. reflexivity. Qed.

Lemma append_empty_r (a : string) : a +:+ "" = a.
Proof. induction a as [|c a IH]; [reflexivity|]. rewrite append_cons, IH. reflexivity. Qed.

Lemma append_assoc (a b c : string) : (a +:+ b) +:+ c = a +:+ (b +:+ c).
Proof.
  induction a as [|x a IH]; [reflexivity|].
  rewrite !append_cons, IH. reflexivity.
Qed.

Lemma append_not_empty (a b : string) : b <> "" -> a +:+ b <> "".
Proof.
  intros Hb. destruct a as [|c a]; [exact Hb|]. rewrite append_cons. discriminate.
Qed.

Lemma digit_char_is_digit (d : Z) :
  0 <= d < 10 -> Float64.is_digit (digit_char d) = true.
Proof.
  intros Hd. unfold Float64.is_digit, digit_char.
  rewrite nat_ascii_embedding by lia.
  apply andb_true_iff. split; apply Nat.leb_le; lia.
Qed.

Lemma digits_fuel_S (fuel : nat) (n : Z) (acc : string) :
  digits_fuel (S fuel) n acc =
  if n <? 10 then String (digit_char (n mod 10)) acc
  else digits_fuel fuel (n / 10) (String (digit_char (n mod 10)) acc).
Proof. reflexivity. Qed.

Lemma all_digits_cons (c : ascii) (s : string) :
  all_digits (String c s) = Float64.is_digit c && all_digits s.
Proof. reflexivity. Qed.

Lemma digits_fuel_all_digits (fuel : nat) (n : Z) (acc : string) :
  0 <= n -> all_digits acc = true -> all_digits (digits_fuel fuel n acc) = true.
Proof.
  revert n acc. induction fuel as [|fuel IH]; intros n acc Hn Hacc; [exact Hacc|].
  assert (Hd : all_digits (String (digit_char (n mod 10)) acc) = true).
  { rewrite all_digits_cons, digit_char_is_digit by (apply Z.mod_pos_bound; lia).
    exact Hacc. }
  rewrite digits_fuel_S. destruct (n <? 10); [exact Hd|].
  apply IH; [apply Z.div_pos; lia | exact Hd].
Qed.

Lemma digits_fuel_not_empty (fuel : nat) (n : Z) (acc : string) :
  digits_fuel (S fuel) n acc <> "".
Proof.
  revert n acc. induction fuel as [|fuel IH]; intros n acc;
    rewrite digits_fuel_S; destruct (n <? 10); try discriminate.
  apply IH.
Qed.

Lemma str_of_nonneg_all_digits (n : Z) :
  0 <= n -> all_digits (str_of_nonneg n) = true.
Proof. intros Hn. apply digits_fuel_all_digits; [exact Hn | reflexivity]. Qed.

Lemma str_of_nonneg_not_empty (n : Z) : str_of_nonneg n <> "".
Proof. apply digits_fuel_not_empty. Qed.

Lemma is_fixed2_digit (seen : bool) (c : ascii) (s : string) :
  Float64.is_digit c = true -> is_fixed2 seen (String c s) = is_fixed2 true s.
Proof. intros Hc. cbn [is_fixed2]. rewrite Hc. reflexivity. Qed.

Lemma is_fixed2_point (d1 d2 : ascii) :
  Float64.is_digit d1 = true -> Float64.is_digit d2 = true ->
  is_fixed2 true ("." +:+ String d1 (String d2 "")) = true.
Proof.
  intros H1 H2.
  change ("." +:+ String d1 (String d2 "")) with (String "."%char (String d1 (String d2 ""))).
  cbn [is_fixed2]. rewrite H1, H2. reflexivity.
Qed.

Lemma is_fixed2_append (a : string) (d1 d2 : ascii) (seen : bool) :
  all_digits a = true ->
  Float64.is_digit d1 = true -> Float64.is_digit d2 = true ->
  (seen = true \/ a <> "") ->
  is_fixed2 seen (a +:+ "." +:+ String d1 (String d2 "")) = true.
Proof.
  revert seen. induction a as [|c a IH]; intros seen Ha H1 H2 Hseen.
  - destruct Hseen as [-> | Hne]; [|congruence].
    rewrite append_empty_l. apply is_fixed2_point; assumption.
  - rewrite all_digits_cons in Ha. apply andb_true_iff in Ha as [Hc Ha].
    rewrite append_cons, is_fixed2_digit by exact Hc.
    apply IH; auto.
Qed.

End PyStrFacts.

(** ** Facts about formatting floats *)

Module FormatFacts.
Import Float64 PyStrFacts.

Lemma round_half_even_div_nonneg (n d : Z) :
  0 <= n -> 0 < d -> 0 <= round_half_even_div n d.
Proof.
  intros Hn Hd. unfold round_half_even_div.
  assert (0 <= n / d) by (apply Z.div_pos; lia).
  destruct (2 * (n mod d) ?= d); [destruct (Z.even (n / d))| |]; lia.
Qed.

Lemma cents_nonneg (m : positive) (e : Z) : 0 <= cents m e.
Proof.
  unfold cents. destruct (0 <=? e) eqn:He.
  - apply Z.leb_le in He. assert (0 < 2 ^ e) by (apply Z.pow_pos_nonneg; lia). nia.
  - apply Z.leb_gt in He. apply round_half_even_div_nonneg; [lia|].
    apply Z.pow_pos_nonneg; lia.
Qed.

Lemma fixed2_is_fixed2 (c : Z) : 0 <= c -> is_fixed2 false (fixed2 c) = true.
Proof.
  intros Hc. unfold fixed2. apply is_fixed2_append.
  - apply PyStrFacts.str_of_nonneg_all_digits. apply Z.div_pos; lia.
  - apply digit_char_is_digit.
    assert (0 <= c mod 100 < 100) by (apply Z.mod_pos_bound; lia).
    split; [apply Z.div_pos; lia | apply Z.div_lt_upper_bound; lia].
  - apply digit_char_is_digit. apply Z.mod_pos_bound; lia.
  - right. apply str_of_nonneg_not_empty.
Qed.

Lemma format_2f_dollar_amount (x : float) :
  is_finite x = true -> is_dollar_amount ("$" +:+ format_2f x) = true.
Proof.
  destruct x as [[]|[]| |[] m e]; try discriminate; intros _;
    try reflexivity; unfold format_2f.
  - change ("$" +:+ "-" +:+ fixed2 (cents m e))
      with (String "$"%char (String "-"%char (fixed2 (cents m e)))).
    cbn [is_dollar_amount]. apply fixed2_is_fixed2, cents_nonneg.
  - change ("$" +:+ "" +:+ fixed2 (cents m e))
      with (String "$"%char (fixed2 (cents m e))).
    pose proof (fixed2_is_fixed2 (cents m e) (cents_nonneg m e)) as Hf.
    cbn [is_dollar_amount]. rewrite Ascii.eqb_refl. cbn [andb].
    destruct (fixed2 (cents m e)) as [|c rest] eqn:Hfx; [discriminate Hf|].
    destruct (Ascii.eqb c "-") eqn:Hminus; [|exact Hf].
    apply Ascii.eqb_eq in Hminus. subst c. discriminate Hf.
Qed.

End FormatFacts.

(** ** Facts about the sort *)

Module SortFacts.
Import Float64 Float64Facts.

Lemma insert_desc_perm (x : CostRecord) (l : list CostRecord) :
  Permutation (insert_desc x l) (x :: l).
Proof.
  induction l as [|y l IH]; simpl; [reflexivity|].
  destruct (ltb (snd x) (snd y)); [|reflexivity].
  rewrite IH. apply perm_swap.
Qed.

Lemma sort_perm (l : list CostRecord) : Permutation (sort_by_amount_desc l) l.
Proof.
  induction l as [|x l IH]; simpl; [reflexivity|].
  rewrite insert_desc_perm. constructor. exact IH.
Qed.

Lemma insert_desc_descending (x : CostRecord) (l : list CostRecord) :
  not_nan x -> Forall not_nan l -> descending l -> descending (insert_desc x l).
Proof.
  unfold descending. intros Hx Hl Hs.
  induction l as [|y l IH]; simpl.
  - repeat constructor.
  - inversion Hl as [|? ? Hy Hl']; subst.
    inversion Hs as [|? ? Hs' Hall]; subst.
    destruct (ltb (snd x) (snd y)) eqn:Hlt.
    + constructor; [apply IH; assumption|].
      eapply Permutation_Forall; [symmetry; apply insert_desc_perm|].
      constructor; [apply ltb_geb, Hlt | exact Hall].
    + assert (Hxy : geb (snd x) (snd y) = true) by (apply ltb_false_geb; assumption).
      constructor; [exact Hs|].
      constructor; [exact Hxy|].
      eapply Forall_impl; [|exact Hall].
      intros z Hyz. cbv beta in *. eapply geb_trans; eassumption.
Qed.

Lemma sort_descending (l : list CostRecord) :
  Forall not_nan l -> descending (sort_by_amount_desc l).
Proof.
  induction l as [|x l IH]; intros Hl; simpl; [constructor|].
  inversion Hl; subst.
  apply insert_desc_descending; auto.
  eapply Permutation_Forall; [symmetry; apply sort_perm | assumption].
Qed.

Lemma insert_desc_ties (v : float) (x : CostRecord) (l : list CostRecord) :
  List.filter (same_amount v) (insert_desc x l) =
  List.filter (same_amount v) (x :: l).
Proof.
  induction l as [|y l IH]; [reflexivity|].
  cbn [insert_desc]. destruct (ltb (snd x) (snd y)) eqn:Hlt; [|reflexivity].
  cbn [List.filter] in *. rewrite IH.
  destruct (same_amount v x) eqn:Hx; [|reflexivity].
  destruct (same_amount v y) eqn:Hy; [|reflexivity].
  unfold same_amount in Hx, Hy.
  rewrite (eqb_eqb_not_ltb _ _ _ Hx Hy) in Hlt. discriminate.
Qed.

Lemma sort_ties_in_order (l : list CostRecord) :
  ties_in_order l (sort_by_amount_desc l).
Proof.
  intros v. induction l as [|x l IH]; [reflexivity|].
  cbn [sort_by_amount_desc fold_right].
  rewrite insert_desc_ties. cbn [List.filter].
  fold (sort_by_amount_desc l). rewrite IH. reflexivity.
Qed.

Lemma kept_not_nan (records : list CostRecord) : Forall not_nan (kept records).
Proof.
  apply Forall_forall. intros r Hr. apply filter_In in Hr as [_ Hr].
  unfold above_threshold in Hr. eapply gtb_not_nan, Hr.
Qed.

Lemma descending_firstn (n : nat) (l : list CostRecord) :
  descending l -> descending (firstn n l).
Proof.
  unfold descending. revert n. induction l as [|x l IH]; intros n Hs.
  - rewrite firstn_nil. constructor.
  - destruct n as [|n]; [constructor|].
    inversion Hs as [|? ? Hs' Hall]; subst. cbn [firstn]. constructor; [auto|].
    apply Forall_forall. intros y Hy.
    eapply Forall_forall in Hall; [exact Hall|].
    revert Hy. clear. revert n.
    induction l as [|z l IHl]; intros [|n] Hy; simpl in Hy; try contradiction.
    destruct Hy as [->|Hy]; [left; reflexivity | right; eauto].
Qed.

(** A descending list is its own first element's lower bound. *)
Lemma descending_head (x y : CostRecord) (l : list CostRecord) :
  not_nan x -> descending (x :: l) -> In y (x :: l) -> geb (snd x) (snd y) = true.
Proof.
  intros Hx Hs [<-|Hy]; [apply geb_refl, Hx|].
  inversion Hs as [|? ? _ Hall]; subst.
  eapply Forall_forall in Hall; eassumption.
Qed.

(** Two descending lists with the same records, and the records of each
    amount in the same order, are one list. *)
Lemma descending_ties_unique (l1 : list CostRecord) :
  forall l2,
    Forall not_nan l1 ->
    descending l1 -> descending l2 ->
    Permutation l1 l2 ->
    (forall v, List.filter (same_amount v) l1 = List.filter (same_amount v) l2) ->
    l1 = l2.
Proof.
  induction l1 as [|x l1 IH]; intros l2 Hnan Hs1 Hs2 Hperm Hties.
  - apply Permutation_nil in Hperm. auto.
  - destruct l2 as [|y l2].
    { symmetry in Hperm. apply Permutation_nil in Hperm. discriminate. }
    inversion Hnan as [|? ? Hx Hnan1]; subst.
    assert (Hy : not_nan y).
    { eapply Forall_forall; [exact Hnan|].
      eapply Permutation_in; [symmetry; exact Hperm | left; reflexivity]. }
    assert (Hxy : geb (snd x) (snd y) = true).
    { apply (descending_head x y l1 Hx Hs1).
      eapply Permutation_in; [symmetry; exact Hperm | left; reflexivity]. }
    assert (Hyx : geb (snd y) (snd x) = true).
    { apply (descending_head y x l2 Hy Hs2).
      eapply Permutation_in; [exact Hperm | left; reflexivity]. }
    assert (Heq : x = y).
    { specialize (Hties (snd y)). cbn [List.filter] in Hties.
      replace (same_amount (snd y) x) with true in Hties
        by (symmetry; apply geb_geb_eqb; assumption).
      replace (same_amount (snd y) y) with true in Hties
        by (symmetry; apply eqb_refl, Hy).
      injection Hties as Hhead _. exact Hhead. }
    subst y. f_equal.
    inversion Hs1; inversion Hs2; subst.
    apply IH; try assumption.
    + eapply Permutation_cons_inv, Hperm.
    + intros v. specialize (Hties v). cbn [List.filter] in Hties.
      destruct (same_amount v x); [injection Hties; auto | exact Hties].
Qed.

(** So the sort is the one stable descending arrangement: whatever
    algorithm [list.sort] runs, this is its result. *)
Lemma sort_by_amount_desc_unique (l l' : list CostRecord) :
  Forall not_nan l ->
  Permutation l' l -> descending l' -> ties_in_order l l' ->
  l' = sort_by_amount_desc l.
Proof.
  intros Hnan Hperm Hdesc Hties.
  apply descending_ties_unique.
  - eapply Permutation_Forall; [symmetry; exact Hperm | exact Hnan].
  - exact Hdesc.
  - apply sort_descending, Hnan.
  - rewrite Hperm. symmetry. apply sort_perm.
  - intros v. rewrite Hties. symmetry. apply sort_ties_in_order.
Qed.

End SortFacts.

(** ** The formatter *)

Module Formatter.
Import Float64 Float64Facts PyStrFacts SortFacts.

Lemma group_records_cons (g : Group) (groups : list Group) (records : list CostRecord) :
  group_records (g :: groups) = Some records ->
  exists service keys amount rs,
    Keys g = service :: keys /\
    py_float (Amount (UnblendedCost g)) = Some amount /\
    group_records groups = Some rs /\
    records = (service, amount) :: rs.
Proof.
  cbn [group_records]. unfold group_record.
  destruct (Keys g) as [|service keys]; [discriminate|].
  destruct (py_float (Amount (UnblendedCost g))) as [amount|]; [|discriminate].
  destruct (group_records groups) as [rs|]; [|discriminate].
  intros [= <-]. exists service, keys, amount, rs. auto.
Qed.

(** The loop keeps the records above the threshold, in their order. *)
Lemma collect_service_costs_kept (groups : list Group) :
  forall (acc records : list CostRecord),
    group_records groups = Some records ->
    collect_service_costs groups acc = Return (acc ++ kept records)%list.
Proof.
  induction groups as [|g groups IH]; intros acc records Hrec.
  - injection Hrec as <-. cbn. rewrite app_nil_r. reflexivity.
  - apply group_records_cons in Hrec
      as (service & keys & amount & rs & Hkeys & Hamount & Hrs & ->).
    cbn [collect_service_costs]. rewrite Hkeys. cbn [index0 obind].
    unfold float_of_str. rewrite Hamount. cbn [obind].
    unfold kept. cbn [List.filter]. unfold above_threshold at 1. cbn [snd].
    destruct (gtb amount threshold).
    + rewrite (IH _ rs Hrs). unfold kept. rewrite <- app_assoc. reflexivity.
    + apply (IH _ rs Hrs).
Qed.

Lemma service_line_item (text : string) (r : CostRecord) :
  service_line text r = text +:+ item_line r.
Proof. destruct r as [service amount]. reflexivity. Qed.

(** The loop over the shown records writes one line for each. *)
Lemma fold_service_line (shown : list CostRecord) :
  forall text,
    fold_left service_line shown text =
    text +:+ fold_right (fun r rest => item_line r +:+ rest) "" shown.
Proof.
  induction shown as [|r shown IH]; intros text; cbn [fold_left fold_right].
  - rewrite append_empty_r. reflexivity.
  - rewrite IH, service_line_item, append_assoc. reflexivity.
Qed.

Lemma forecast_display_outcome (f : Forecast) (display : string) :
  forecast_display f = Some display ->
  (if String.eqb (Amount (Total f)) "N/A" then Return "データ不足"
   else let? x := float_of_str (Amount (Total f)) in
        Return ("$" +:+ format_2f x)) = Return display.
Proof.
  unfold forecast_display, float_of_str.
  destruct (String.eqb (Amount (Total f)) "N/A"); [intros [= <-]; reflexivity|].
  destruct (py_float (Amount (Total f))); [|discriminate].
  intros [= <-]. reflexivity.
Qed.

(** On a well-formed response the formatter returns the report of the
    kept records, sorted. *)
Lemma format_cost_message_report (w : World) (cost_data : CostData)
    (records : list CostRecord) (display : string) :
  well_formed cost_data records display ->
  format_cost_message w cost_data =
  Return (report w (sort_by_amount_desc (kept records)) display).
Proof.
  intros (bucket & rest & Hbucket & Hrecords & Hdisplay).
  unfold format_cost_message. rewrite Hbucket. cbn [index0 obind].
  rewrite (collect_service_costs_kept _ [] records Hrecords).
  cbn [app obind].
  rewrite (forecast_display_outcome _ _ Hdisplay). cbn [obind].
  rewrite fold_service_line. reflexivity.
Qed.

Lemma kept_above (records : list CostRecord) (r : CostRecord) :
  In r (kept records) <-> In r records /\ gtb (snd r) threshold = true.
Proof. apply filter_In. Qed.

Lemma ranked_above (records : list CostRecord) (r : CostRecord) :
  In r (sort_by_amount_desc (kept records)) <->
  In r records /\ gtb (snd r) threshold = true.
Proof.
  rewrite <- kept_above. split; apply Permutation_in;
    [apply sort_perm | symmetry; apply sort_perm].
Qed.

(** Above the threshold, the records of one amount are all kept. *)
Lemma kept_same_amount (v : float) (records : list CostRecord) :
  gtb v threshold = true ->
  List.filter (same_amount v) (kept records) = List.filter (same_amount v) records.
Proof.
  intros Hv. induction records as [|r records IH]; [reflexivity|].
  unfold kept in *. cbn [List.filter].
  destruct (above_threshold r) eqn:Habove; cbn [List.filter]; rewrite IH; [reflexivity|].
  destruct (same_amount v r) eqn:Hsame; [|reflexivity].
  unfold above_threshold in Habove. unfold same_amount in Hsame.
  rewrite (eqb_gtb _ _ _ Hsame Hv) in Habove. discriminate.
Qed.

End Formatter.

(** ** Properties of the report *)

Section Report.
Import Float64 Formatter SortFacts.

Variable w : World.

(** C1: on every daily-cost response the formatter takes, a record with
    amount <= 0.01 is in neither the ranked list, of which the itemized
    section shows the head, nor the total, which is the sum of the
    amounts of the records kept; and on the scenario A = 12.50,
    B = 0.004, C = 7.25 the records kept are A and C, ranked [A, C],
    with the total shown as $19.75. *)
Theorem format_cost_message_drops_noise :
  (forall (cost_data : CostData) (records : list CostRecord) (display : string),
      well_formed cost_data records display ->
      exists message,
        format_cost_message w cost_data = Return message /\
        Permutation (sort_by_amount_desc (kept records)) (kept records) /\
        (forall r, In r records -> leb (snd r) threshold = true ->
                   ~ In r (sort_by_amount_desc (kept records))) /\
        (forall r, In r (sort_by_amount_desc (kept records)) <->
                   In r records /\ gtb (snd r) threshold = true) /\
        itemized_text message =
          Some (itemized (firstn 10 (sort_by_amount_desc (kept records)))) /\
        total_field message =
          Some (total_line (py_sum w (map snd (sort_by_amount_desc (kept records))))))
  /\
  (forall (cost_data : CostData) (rest : list ResultByTime) (display : string),
      ResultsByTime (daily_cost cost_data) = {| Groups := scenario_groups |} :: rest ->
      forecast_display (forecast cost_data) = Some display ->
      exists message,
        format_cost_message w cost_data = Return message /\
        sort_by_amount_desc (kept (records_of scenario_groups)) = scenario_ranked /\
        itemized_text message =
          Some ("*サービス別内訳:*" +:+ PyStr.LF +:+
                "• A: $12.50" +:+ PyStr.LF +:+ "• C: $7.25" +:+ PyStr.LF) /\
        total_field message =
          Some ("*昨日の総利用料金:*" +:+ PyStr.LF +:+ "$19.75")).
Proof.
  split.
  - intros cost_data records display Hwf.
    exists (report w (sort_by_amount_desc (kept records)) display).
    split; [apply format_cost_message_report, Hwf|].
    split; [apply sort_perm|].
    split.
    { intros r _ Hle Hin. apply ranked_above in Hin as [_ Hgt].
      rewrite (Float64Facts.leb_not_gtb _ _ Hle) in Hgt. discriminate. }
    split; [apply ranked_above|].
    split; reflexivity.
  - intros cost_data rest display Hbucket Hdisplay.
    assert (Hwf : well_formed cost_data (records_of scenario_groups) display).
    { exists {| Groups := scenario_groups |}, rest. repeat split; assumption || reflexivity. }
    exists (report w (sort_by_amount_desc (kept (records_of scenario_groups))) display).
    split; [apply format_cost_message_report, Hwf|].
    split; [vm_compute; reflexivity|].
    split; [vm_compute; reflexivity|].
    unfold report, total_field, total_line, py_sum. cbn [blocks].
    destruct (compensated_sum w); vm_compute; reflexivity.
Qed.

(** C5: on every daily-cost response the formatter takes, the ranked
    list, and so the head of it that the itemized section shows, is
    descending by amount, and records of equal amount stand in the order
    they have in the response. *)
Theorem ranked_services_descending_stable
    (cost_data : CostData) (records : list CostRecord) (display : string) :
  well_formed cost_data records display ->
  exists message,
    format_cost_message w cost_data = Return message /\
    itemized_text message =
      Some (itemized (firstn 10 (sort_by_amount_desc (kept records)))) /\
    Permutation (sort_by_amount_desc (kept records)) (kept records) /\
    descending (sort_by_amount_desc (kept records)) /\
    descending (firstn 10 (sort_by_amount_desc (kept records))) /\
    ties_in_order (kept records) (sort_by_amount_desc (kept records)) /\
    (forall v, gtb v threshold = true ->
               List.filter (same_amount v) (sort_by_amount_desc (kept records)) =
               List.filter (same_amount v) records).
Proof.
  intros Hwf.
  exists (report w (sort_by_amount_desc (kept records)) display).
  split; [apply format_cost_message_report, Hwf|].
  split; [reflexivity|].
  split; [apply sort_perm|].
  assert (Hdesc : descending (sort_by_amount_desc (kept records)))
    by apply sort_descending, kept_not_nan.
  split; [exact Hdesc|].
  split; [apply descending_firstn, Hdesc|].
  split; [apply sort_ties_in_order|].
  intros v Hv. rewrite sort_ties_in_order. apply kept_same_amount, Hv.
Qed.

(** C6: on every daily-cost response the formatter takes, the itemized
    section lists the first ten of the ranked records, ten lines at
    most, and the total is the sum over all of them, shown or not. *)
Theorem itemized_top_ten_total_of_all
    (cost_data : CostData) (records : list CostRecord) (display : string) :
  well_formed cost_data records display ->
  exists message shown,
    format_cost_message w cost_data = Return message /\
    shown = firstn 10 (sort_by_amount_desc (kept records)) /\
    itemized_text message = Some (itemized shown) /\
    (List.length shown <= 10)%nat /\
    List.length shown = Nat.min 10 (List.length (kept records)) /\
    Permutation (sort_by_amount_desc (kept records)) (kept records) /\
    total_field message =
      Some (total_line (py_sum w (map snd (sort_by_amount_desc (kept records))))).
Proof.
  intros Hwf.
  exists (report w (sort_by_amount_desc (kept records)) display),
    (firstn 10 (sort_by_amount_desc (kept records))).
  split; [apply format_cost_message_report, Hwf|].
  split; [reflexivity|].
  split; [reflexivity|].
  split; [apply firstn_le_length|].
  split.
  { rewrite length_firstn. f_equal. apply Permutation_length, sort_perm. }
  split; [apply sort_perm | reflexivity].
Qed.

End Report.

(** ** The notifier *)

Module Notifier.

Local Open Scope list_scope.

Lemma count_posts_app (t t' : trace) :
  count_posts (t ++ t') = (count_posts t + count_posts t')%nat.
Proof. unfold count_posts. rewrite List.filter_app, length_app. reflexivity. Qed.

Lemma count_sleeps_app (t t' : trace) :
  count_sleeps (t ++ t') = (count_sleeps t + count_sleeps t')%nat.
Proof. unfold count_sleeps. rewrite List.filter_app, length_app. reflexivity. Qed.

Lemma count_posts_backoff (webhook_url : string) (message : Message)
    (retry_count : Z) (errs : list string) :
  forall first,
    count_posts (backoff_events webhook_url message retry_count first errs)
    = List.length errs.
Proof.
  induction errs as [|err errs IH]; intros first; [reflexivity|].
  cbn [backoff_events]. change (S (count_posts
    (backoff_events webhook_url message retry_count (first + 1) errs))
    = S (List.length errs)).
  rewrite IH. reflexivity.
Qed.

Lemma count_sleeps_backoff (webhook_url : string) (message : Message)
    (retry_count : Z) (errs : list string) :
  forall first,
    count_sleeps (backoff_events webhook_url message retry_count first errs)
    = List.length errs.
Proof.
  induction errs as [|err errs IH]; intros first; [reflexivity|].
  cbn [backoff_events]. change (S (count_sleeps
    (backoff_events webhook_url message retry_count (first + 1) errs))
    = S (List.length errs)).
  rewrite IH. reflexivity.
Qed.

Lemma attempts_fail_app (w : World) (webhook_url : string) (message : Message)
    (errs errs' : list string) :
  forall n,
    attempts_fail w n webhook_url message (errs ++ errs') <->
    attempts_fail w n webhook_url message errs /\
    attempts_fail w (n + List.length errs) webhook_url message errs'.
Proof.
  induction errs as [|err errs IH]; intros n; cbn [attempts_fail app List.length].
  - rewrite Nat.add_0_r. tauto.
  - rewrite IH. replace (n + S (List.length errs))%nat
      with (S n + List.length errs)%nat by lia. tauto.
Qed.

(** A status from 400 to 599 makes the attempt fail with a request
    exception; any other status makes it succeed. *)
Lemma attempt_outcome_status (w : World) (n : nat) (webhook_url : string)
    (message : Message) (response : Response) :
  post_result w n webhook_url message = Return response ->
  (400 <= status_code response < 600 ->
   attempt_outcome w n webhook_url message =
   Raise (RequestException (http_error_msg response))) /\
  (status_code response < 400 \/ 600 <= status_code response ->
   attempt_outcome w n webhook_url message = Return response).
Proof.
  intros Hpost. unfold attempt_outcome. rewrite Hpost. unfold http_error_msg.
  split; intros Hstatus.
  - destruct (Z.leb_spec 400 (status_code response)); [|lia].
    destruct (Z.ltb_spec (status_code response) 500); cbn [andb].
    + destruct (String.eqb_spec
                  (PyStr.str_of_int (status_code response) +:+ " Client Error: "
                   +:+ reason response +:+ " for url: " +:+ url response) "")
        as [Hempty|_]; [|reflexivity].
      apply PyStrFacts.append_not_empty in Hempty; [contradiction|].
      rewrite PyStrFacts.append_cons. discriminate.
    + destruct (Z.leb_spec 500 (status_code response)); [|lia].
      destruct (Z.ltb_spec (status_code response) 600); [|lia]. cbn [andb].
      destruct (String.eqb_spec
                  (PyStr.str_of_int (status_code response) +:+ " Server Error: "
                   +:+ reason response +:+ " for url: " +:+ url response) "")
        as [Hempty|_]; [|reflexivity].
      apply PyStrFacts.append_not_empty in Hempty; [contradiction|].
      rewrite PyStrFacts.append_cons. discriminate.
  - destruct (Z.leb_spec 400 (status_code response));
      destruct (Z.ltb_spec (status_code response) 500);
      destruct (Z.leb_spec 500 (status_code response));
      destruct (Z.ltb_spec (status_code response) 600);
      cbn [andb]; try lia; reflexivity.
Qed.

Section Loop.
Variable w : World.
Variable webhook_url : string.
Variable message : Message.
Variable retry_count : Z.

(** One turn of the loop, by what the attempt yields. *)
Lemma notify_loop_cons (attempt : Z) (attempts : list Z) (t : trace) :
  notify_loop w webhook_url message retry_count (attempt :: attempts) t =
  match attempt_outcome w (count_posts t) webhook_url message with
  | Return response => (Return (Some response), t ++ [EvPost webhook_url message])
  | Raise e =>
      if is_RequestException e then
        if attempt =? retry_count - 1 then
          (Raise e,
           t ++ [EvPost webhook_url message;
                 EvPrint ("Failed to send Slack notification after "
                          +:+ PyStr.str_of_int retry_count
                          +:+ " attempts: " +:+ str_exn e)])
        else
          notify_loop w webhook_url message retry_count attempts
            (t ++ [EvPost webhook_url message;
                   EvPrint ("Retry " +:+ PyStr.str_of_int (attempt + 1) +:+ "/"
                            +:+ PyStr.str_of_int retry_count
                            +:+ " failed: " +:+ str_exn e);
                   EvSleep 1])
      else (Raise e, t ++ [EvPost webhook_url message])
  end%list.
Proof.
  cbn [notify_loop].
  unfold try_except, bind, requests_post, attempt_outcome, raise_for_status.
  destruct (post_result w (count_posts t) webhook_url message) as [response|e].
  - destruct (String.eqb (http_error_msg response) ""); [reflexivity|].
    unfold raise. cbn [is_RequestException].
    destruct (attempt =? retry_count - 1);
      unfold print, time_sleep, emit, raise; rewrite <- ?app_assoc; reflexivity.
  - destruct (is_RequestException e); [|reflexivity].
    destruct (attempt =? retry_count - 1);
      unfold print, time_sleep, emit, raise; rewrite <- ?app_assoc; reflexivity.
Qed.

(** Failed attempts that are not the last are each followed by the
    backoff, and the loop goes on with the attempts left. *)
Lemma notify_loop_backoff (errs : list string) :
  forall (j k : nat) (t : trace),
    attempts_fail w (count_posts t) webhook_url message errs ->
    Z.of_nat (j + List.length errs) < retry_count ->
    notify_loop w webhook_url message retry_count
      (map Z.of_nat (seq j (List.length errs + k))) t =
    notify_loop w webhook_url message retry_count
      (map Z.of_nat (seq (j + List.length errs) k))
      (t ++ backoff_events webhook_url message retry_count (Z.of_nat j) errs).
Proof.
  induction errs as [|err errs IH]; intros j k t Hfail Hlt.
  - cbn [List.length backoff_events Nat.add]. rewrite Nat.add_0_r, app_nil_r.
    reflexivity.
  - destruct Hfail as [Hhead Hfail]. cbn [List.length] in *.
    cbn [Nat.add seq map]. rewrite notify_loop_cons, Hhead.
    cbn [is_RequestException str_exn].
    destruct (Z.eqb_spec (Z.of_nat j) (retry_count - 1)) as [Heq|_]; [lia|].
    rewrite (IH (S j) k).
    + replace (S j + List.length errs)%nat with (j + S (List.length errs))%nat by lia.
      cbn [backoff_events]. rewrite <- app_assoc.
      replace (Z.of_nat (S j)) with (Z.of_nat j + 1) by lia.
      reflexivity.
    + rewrite count_posts_app. cbn. rewrite Nat.add_1_r. exact Hfail.
    + lia.
Qed.

Lemma py_range_split (n : nat) :
  Z.of_nat n < retry_count ->
  exists k, py_range retry_count = map Z.of_nat (seq 0 (n + S k)).
Proof.
  intros Hlt. exists (Z.to_nat retry_count - n - 1)%nat.
  unfold py_range. do 2 f_equal. lia.
Qed.

(** The loop from the start, after the failures [errs], at the attempt
    that comes next. *)
Lemma notify_loop_after (errs : list string) (t : trace) :
  attempts_fail w (count_posts t) webhook_url message errs ->
  Z.of_nat (List.length errs) < retry_count ->
  exists k,
    notify_loop w webhook_url message retry_count (py_range retry_count) t =
    notify_loop w webhook_url message retry_count
      (Z.of_nat (List.length errs) :: map Z.of_nat (seq (S (List.length errs)) k))
      (t ++ backoff_events webhook_url message retry_count 0 errs).
Proof.
  intros Hfail Hlt.
  destruct (py_range_split _ Hlt) as [k Hk]. exists k.
  rewrite Hk, (notify_loop_backoff errs 0 (S k) t Hfail) by (cbn [Nat.add]; lia).
  reflexivity.
Qed.

(** What the loop adds to the trace obeys the retry discipline; [j]
    attempts were made before and [k] are left. *)
Lemma notify_loop_discipline (k : nat) :
  forall (j : nat) (t : trace),
    (k <> O -> Z.of_nat (j + k) = retry_count) ->
    exists evs,
      snd (notify_loop w webhook_url message retry_count
             (map Z.of_nat (seq j k)) t) = (t ++ evs)%list /\
      (count_posts evs <= k)%nat /\
      (k <> O -> (1 <= count_posts evs)%nat) /\
      count_sleeps evs = (count_posts evs - 1)%nat /\
      Forall (fun ev => is_sleep ev = true -> ev = EvSleep 1) evs /\
      (forall evs' ev, evs = (evs' ++ [ev])%list -> is_sleep ev = false).
Proof.
  induction k as [|k IH]; intros j t Hlast.
  - exists []. cbn. rewrite app_nil_r.
    repeat split; try lia; try constructor; try congruence.
    intros evs' ev Hnil. destruct evs'; discriminate.
  - cbn [seq map]. rewrite notify_loop_cons.
    assert (Hone : forall (ev' : event) evs' ev,
               [ev'] = (evs' ++ [ev])%list -> ev = ev').
    { intros ev' [|x evs'] ev Hev; [injection Hev; auto|].
      destruct evs'; discriminate. }
    destruct (attempt_outcome w (count_posts t) webhook_url message) as [response|e].
    { exists [EvPost webhook_url message]. cbn.
      repeat split; try lia.
      - repeat constructor. discriminate.
      - intros evs' ev Hev. apply Hone in Hev. subst ev. reflexivity. }
    destruct (is_RequestException e).
    2:{ exists [EvPost webhook_url message]. cbn.
        repeat split; try lia.
        - repeat constructor. discriminate.
        - intros evs' ev Hev. apply Hone in Hev. subst ev. reflexivity. }
    destruct (Z.eqb_spec (Z.of_nat j) (retry_count - 1)) as [Heq|Hne].
    { eexists [EvPost webhook_url message; EvPrint _]. cbn.
      repeat split; try lia.
      - repeat constructor; discriminate.
      - intros [|x [|y evs']] ev Hev; try discriminate.
        + injection Hev as _ <-. reflexivity.
        + destruct evs'; discriminate. }
    assert (Hk : k <> O) by (specialize (Hlast ltac:(discriminate)); lia).
    destruct (IH (S j) (t ++ [EvPost webhook_url message;
                   EvPrint ("Retry " +:+ PyStr.str_of_int (Z.of_nat j + 1) +:+ "/"
                            +:+ PyStr.str_of_int retry_count
                            +:+ " failed: " +:+ str_exn e);
                   EvSleep 1])%list)
      as (evs & Hevs & Hposts & Hsome & Hsleeps & Hone_sec & Hend).
    { intros _. specialize (Hlast ltac:(discriminate)). lia. }
    specialize (Hsome Hk).
    eexists ([EvPost webhook_url message; EvPrint _; EvSleep 1] ++ evs)%list.
    rewrite Hevs, <- app_assoc.
    split; [reflexivity|].
    rewrite count_posts_app, count_sleeps_app.
    change (count_posts [EvPost webhook_url message; EvPrint _; EvSleep 1]) with 1%nat.
    change (count_sleeps [EvPost webhook_url message; EvPrint _; EvSleep 1]) with 1%nat.
    repeat split; try lia.
    + cbn [app]. repeat constructor; try discriminate. exact Hone_sec.
    + intros evs' ev Hev.
      destruct evs as [|x evs] using rev_ind; [cbn in Hsome; lia|].
      rewrite app_assoc in Hev. apply app_inj_tail in Hev as [_ <-].
      eapply Hend. reflexivity.
Qed.

End Loop.

End Notifier.

(** ** Properties of the notifier *)

Section NotifySlack.
Import Notifier.
Local Open Scope list_scope.

Variable w : World.
Variable message : Message.

Lemma notify_slack_configured (webhook_url : string) (retry_count : Z) (t : trace) :
  environ w !! "SLACK_WEBHOOK_URL" = Some webhook_url ->
  notify_slack w message retry_count t =
  notify_loop w webhook_url message retry_count (py_range retry_count) t.
Proof.
  intros Henv. unfold notify_slack, os_environ, bind. rewrite Henv. reflexivity.
Qed.

Lemma notify_slack_unconfigured (retry_count : Z) (t : trace) :
  environ w !! "SLACK_WEBHOOK_URL" = None ->
  notify_slack w message retry_count t = (Raise (KeyError "SLACK_WEBHOOK_URL"), t).
Proof.
  intros Henv. unfold notify_slack, os_environ, bind. rewrite Henv. reflexivity.
Qed.

Lemma notify_slack_discipline (retry_count : Z) (t0 : trace) :
  exists evs,
    snd (notify_slack w message retry_count t0) = t0 ++ evs /\
    retry_discipline retry_count evs.
Proof.
  destruct (environ w !! "SLACK_WEBHOOK_URL") as [webhook_url|] eqn:Henv.
  - rewrite (notify_slack_configured webhook_url) by exact Henv.
    destruct (notify_loop_discipline w webhook_url message retry_count
                (Z.to_nat retry_count) 0%nat t0)
      as (evs & Hevs & Hposts & _ & Hsleeps & Hsec & Hend).
    { intros Hpos. cbn [Nat.add]. lia. }
    exists evs. split; [exact Hevs|]. repeat split; assumption.
  - rewrite notify_slack_unconfigured by exact Henv.
    exists []. cbn [snd]. rewrite app_nil_r. split; [reflexivity|].
    repeat split; cbn; try lia; try constructor.
    intros [|x evs'] ev Hev; discriminate.
Qed.

Lemma notify_slack_succeeds (retry_count : Z) (t0 : trace)
    (webhook_url : string) (errs : list string) (response : Response) :
  environ w !! "SLACK_WEBHOOK_URL" = Some webhook_url ->
  attempts_fail w (count_posts t0) webhook_url message errs ->
  Z.of_nat (List.length errs) < retry_count ->
  attempt_outcome w (count_posts t0 + List.length errs) webhook_url message
    = Return response ->
  notify_slack w message retry_count t0 =
  (Return (Some response),
   t0 ++ backoff_events webhook_url message retry_count 0 errs
      ++ [EvPost webhook_url message]).
Proof.
  intros Henv Hfail Hlt Hok.
  rewrite (notify_slack_configured webhook_url) by exact Henv.
  destruct (notify_loop_after w webhook_url message retry_count errs t0 Hfail Hlt)
    as [k ->].
  rewrite notify_loop_cons, count_posts_app, count_posts_backoff, Hok.
  rewrite <- app_assoc. reflexivity.
Qed.

Lemma notify_slack_exhausted (retry_count : Z) (t0 : trace)
    (webhook_url : string) (errs : list string) (err : string) :
  environ w !! "SLACK_WEBHOOK_URL" = Some webhook_url ->
  attempts_fail w (count_posts t0) webhook_url message (errs ++ [err]) ->
  Z.of_nat (List.length (errs ++ [err])) = retry_count ->
  notify_slack w message retry_count t0 =
  (Raise (RequestException err),
   t0 ++ backoff_events webhook_url message retry_count 0 errs
      ++ [EvPost webhook_url message;
          EvPrint ("Failed to send Slack notification after "
                   +:+ PyStr.str_of_int retry_count
                   +:+ " attempts: " +:+ err)]).
Proof.
  intros Henv Hfail Hlen.
  rewrite (notify_slack_configured webhook_url) by exact Henv.
  apply attempts_fail_app in Hfail as [Hfail [Hlast _]].
  rewrite length_app in Hlen. cbn [List.length] in Hlen.
  destruct (notify_loop_after w webhook_url message retry_count errs t0 Hfail)
    as [k ->]; [lia|].
  rewrite notify_loop_cons, count_posts_app, count_posts_backoff, Hlast.
  cbn [is_RequestException str_exn].
  destruct (Z.eqb_spec (Z.of_nat (List.length errs)) (retry_count - 1)); [|lia].
  rewrite <- app_assoc. reflexivity.
Qed.

(** C2: a call of notify_slack makes at most [retry_count] POSTs (3 by
    default) and sleeps one second between two POSTs and nowhere else;
    an attempt answered with a 2xx status succeeds; with the webhook
    configured, the first attempt that succeeds ends
    the call with its response, after the backoffs of the failures
    before it and nothing after it; and when all [retry_count] attempts
    fail with request exceptions, the call raises the last of them,
    with no backoff after the last attempt. *)
Theorem notify_slack_retry_policy (retry_count : Z) (t0 : trace) :
  default_retry_count = 3 /\
  (forall (n : nat) (webhook_url : string) (response : Response),
      post_result w n webhook_url message = Return response ->
      200 <= status_code response < 300 ->
      attempt_outcome w n webhook_url message = Return response) /\
  (exists evs,
      snd (notify_slack w message retry_count t0) = t0 ++ evs /\
      retry_discipline retry_count evs) /\
  (forall (webhook_url : string) (errs : list string) (response : Response),
      environ w !! "SLACK_WEBHOOK_URL" = Some webhook_url ->
      attempts_fail w (count_posts t0) webhook_url message errs ->
      Z.of_nat (List.length errs) < retry_count ->
      attempt_outcome w (count_posts t0 + List.length errs) webhook_url message
        = Return response ->
      notify_slack w message retry_count t0 =
      (Return (Some response),
       t0 ++ backoff_events webhook_url message retry_count 0 errs
          ++ [EvPost webhook_url message])) /\
  (forall (webhook_url : string) (errs : list string) (err : string),
      environ w !! "SLACK_WEBHOOK_URL" = Some webhook_url ->
      attempts_fail w (count_posts t0) webhook_url message (errs ++ [err]) ->
      Z.of_nat (List.length (errs ++ [err])) = retry_count ->
      notify_slack w message retry_count t0 =
      (Raise (RequestException err),
       t0 ++ backoff_events webhook_url message retry_count 0 errs
          ++ [EvPost webhook_url message;
              EvPrint ("Failed to send Slack notification after "
                       +:+ PyStr.str_of_int retry_count
                       +:+ " attempts: " +:+ err)])).
Proof.
  split; [reflexivity|].
  split.
  { intros n webhook_url response Hpost Hstatus.
    apply (attempt_outcome_status w n webhook_url message response Hpost). lia. }
  split; [apply notify_slack_discipline|].
  split.
  - intros webhook_url errs response. apply notify_slack_succeeds.
  - intros webhook_url errs err. apply notify_slack_exhausted.
Qed.

(** C8: with no SLACK_WEBHOOK_URL in the environment, notify_slack
    raises the KeyError of the lookup at once: whatever [retry_count]
    is, nothing is posted, logged or slept, and no attempt is made. *)
Theorem notify_slack_unconfigured_fails (retry_count : Z) (t0 : trace) :
  environ w !! "SLACK_WEBHOOK_URL" = None ->
  notify_slack w message retry_count t0 = (Raise (KeyError "SLACK_WEBHOOK_URL"), t0) /\
  count_posts (snd (notify_slack w message retry_count t0)) = count_posts t0 /\
  count_sleeps (snd (notify_slack w message retry_count t0)) = count_sleeps t0.
Proof.
  intros Henv. rewrite notify_slack_unconfigured by exact Henv.
  repeat split.
Qed.

(** C9: with [retry_count <= 0] the loop body never runs: nothing is
    posted, logged or slept, no delivery failure is raised, and with
    the webhook configured the call returns None. *)
Theorem notify_slack_no_attempts (retry_count : Z) (t0 : trace) :
  retry_count <= 0 ->
  snd (notify_slack w message retry_count t0) = t0 /\
  (forall text, fst (notify_slack w message retry_count t0)
                <> Raise (RequestException text)) /\
  (forall webhook_url,
      environ w !! "SLACK_WEBHOOK_URL" = Some webhook_url ->
      notify_slack w message retry_count t0 = (Return None, t0)).
Proof.
  intros Hle.
  assert (Hrange : py_range retry_count = []).
  { unfold py_range. replace (Z.to_nat retry_count) with 0%nat by lia. reflexivity. }
  destruct (environ w !! "SLACK_WEBHOOK_URL") as [webhook_url|] eqn:Henv.
  - rewrite (notify_slack_configured webhook_url) by exact Henv.
    rewrite Hrange. cbn. repeat split; discriminate.
  - rewrite notify_slack_unconfigured by exact Henv.
    cbn. repeat split; try discriminate.
Qed.

(** C10: an attempt that raises an exception that is no request
    exception ends the call with that exception: after the backoffs of
    the request failures before it, its POST is the last event, with no
    log line, no backoff and no further attempt. *)
Theorem notify_slack_other_exception_propagates
    (retry_count : Z) (t0 : trace) (webhook_url : string)
    (errs : list string) (e : exn) :
  environ w !! "SLACK_WEBHOOK_URL" = Some webhook_url ->
  attempts_fail w (count_posts t0) webhook_url message errs ->
  Z.of_nat (List.length errs) < retry_count ->
  attempt_outcome w (count_posts t0 + List.length errs) webhook_url message = Raise e ->
  is_RequestException e = false ->
  notify_slack w message retry_count t0 =
  (Raise e,
   t0 ++ backoff_events webhook_url message retry_count 0 errs
      ++ [EvPost webhook_url message]) /\
  count_posts (snd (notify_slack w message retry_count t0))
    = (count_posts t0 + List.length errs + 1)%nat /\
  count_sleeps (snd (notify_slack w message retry_count t0))
    = (count_sleeps t0 + List.length errs)%nat.
Proof.
  intros Henv Hfail Hlt Hraise Hother.
  assert (Hrun : notify_slack w message retry_count t0 =
                 (Raise e,
                  t0 ++ backoff_events webhook_url message retry_count 0 errs
                     ++ [EvPost webhook_url message])).
  { rewrite (notify_slack_configured webhook_url) by exact Henv.
    destruct (notify_loop_after w webhook_url message retry_count errs t0 Hfail Hlt)
      as [k ->].
    rewrite notify_loop_cons, count_posts_app, count_posts_backoff, Hraise, Hother.
    rewrite <- app_assoc. reflexivity. }
  rewrite Hrun. cbn [snd].
  rewrite !count_posts_app, !count_sleeps_app, count_posts_backoff, count_sleeps_backoff.
  repeat split; cbn; lia.
Qed.

End NotifySlack.

(** ** Properties of the fetcher *)

Section Fetcher.
Local Open Scope list_scope.

Variable w : World.

Lemma data_unavailable_dec (e : exn) :
  {text | e = ClientError "DataUnavailableException" text} +
  {forall text, e <> ClientError "DataUnavailableException" text}.
Proof.
  destruct e as [code text| | | | |]; try (right; discriminate).
  destruct (String.eqb_spec code "DataUnavailableException") as [->|Hne].
  - left. exists text. reflexivity.
  - right. intros text' [= Hcode _]. contradiction.
Qed.

(** What the fetcher does, by what Cost Explorer answers. *)
Lemma get_cost_data_daily_raises (e : exn) (t : trace) :
  ce_client w = Return tt ->
  ce_cost_and_usage w = Raise e ->
  get_cost_data w t =
  (Raise e, t ++ [EvGetCostAndUsage; EvPrint ("Unexpected error: " +:+ str_exn e)]).
Proof.
  intros Hclient Hdaily.
  unfold get_cost_data, try_except, bind, lift, emit, print, emit, raise.
  rewrite Hclient, Hdaily. rewrite <- app_assoc. reflexivity.
Qed.

Lemma get_cost_data_forecast_returns (response : CostAndUsage) (f : Forecast) (t : trace) :
  ce_client w = Return tt ->
  ce_cost_and_usage w = Return response ->
  ce_cost_forecast w = Return f ->
  get_cost_data w t =
  (Return {| daily_cost := response; forecast := f |},
   t ++ [EvGetCostAndUsage; EvGetCostForecast]).
Proof.
  intros Hclient Hdaily Hforecast.
  unfold get_cost_data, try_except, bind, lift, emit, print, emit, raise, ret.
  rewrite Hclient, Hdaily, Hforecast. rewrite <- app_assoc. reflexivity.
Qed.

Lemma get_cost_data_forecast_unavailable (response : CostAndUsage) (text : string)
    (t : trace) :
  ce_client w = Return tt ->
  ce_cost_and_usage w = Return response ->
  ce_cost_forecast w = Raise (ClientError "DataUnavailableException" text) ->
  get_cost_data w t =
  (Return {| daily_cost := response; forecast := unavailable_forecast |},
   t ++ [EvGetCostAndUsage; EvGetCostForecast;
         EvPrint "予測データが利用できません。現在のコストのみ表示します。"]).
Proof.
  intros Hclient Hdaily Hforecast.
  unfold get_cost_data, try_except, bind, lift, emit, print, emit, raise, ret.
  rewrite Hclient, Hdaily, Hforecast.
  change (String.eqb "DataUnavailableException" "DataUnavailableException") with true.
  cbv iota. rewrite <- !app_assoc. reflexivity.
Qed.

Lemma get_cost_data_forecast_raises (response : CostAndUsage) (e : exn) (t : trace) :
  ce_client w = Return tt ->
  ce_cost_and_usage w = Return response ->
  ce_cost_forecast w = Raise e ->
  (forall text, e <> ClientError "DataUnavailableException" text) ->
  get_cost_data w t =
  (Raise e,
   t ++ [EvGetCostAndUsage; EvGetCostForecast;
         EvPrint ("Unexpected error: " +:+ str_exn e)]).
Proof.
  intros Hclient Hdaily Hforecast Hother.
  unfold get_cost_data, try_except, bind, lift, emit, print, emit, raise, ret.
  rewrite Hclient, Hdaily, Hforecast.
  destruct e as [code text| | | | |]; rewrite <- ?app_assoc; try reflexivity.
  destruct (String.eqb_spec code "DataUnavailableException") as [->|Hne];
    [destruct (Hother text); reflexivity|].
  rewrite <- ?app_assoc. reflexivity.
Qed.

Lemma get_cost_data_client_raises (e : exn) (t : trace) :
  ce_client w = Raise e -> get_cost_data w t = (Raise e, t).
Proof.
  intros Hclient. unfold get_cost_data, bind, lift. rewrite Hclient. reflexivity.
Qed.

(** C7: an error of the daily-cost query, and an error of the forecast
    query that is not the ClientError of code DataUnavailableException,
    is raised by the fetcher, which returns no cost data then; the
    fetcher returns cost data only when the daily query answered and the
    forecast query answered or raised that one error, for which the
    sentinel stands. *)
Theorem get_cost_data_recovers_only_unavailable (t0 : trace) :
  (forall e,
      ce_client w = Return tt ->
      ce_cost_and_usage w = Raise e ->
      get_cost_data w t0 =
      (Raise e, t0 ++ [EvGetCostAndUsage; EvPrint ("Unexpected error: " +:+ str_exn e)])) /\
  (forall response e,
      ce_client w = Return tt ->
      ce_cost_and_usage w = Return response ->
      ce_cost_forecast w = Raise e ->
      (forall text, e <> ClientError "DataUnavailableException" text) ->
      get_cost_data w t0 =
      (Raise e,
       t0 ++ [EvGetCostAndUsage; EvGetCostForecast;
              EvPrint ("Unexpected error: " +:+ str_exn e)])) /\
  (forall response text,
      ce_client w = Return tt ->
      ce_cost_and_usage w = Return response ->
      ce_cost_forecast w = Raise (ClientError "DataUnavailableException" text) ->
      get_cost_data w t0 =
      (Return {| daily_cost := response; forecast := unavailable_forecast |},
       t0 ++ [EvGetCostAndUsage; EvGetCostForecast;
              EvPrint "予測データが利用できません。現在のコストのみ表示します。"])) /\
  (forall cost_data t1,
      get_cost_data w t0 = (Return cost_data, t1) ->
      ce_cost_and_usage w = Return (daily_cost cost_data) /\
      (ce_cost_forecast w = Return (forecast cost_data) \/
       exists text,
         ce_cost_forecast w = Raise (ClientError "DataUnavailableException" text) /\
         forecast cost_data = unavailable_forecast)).
Proof.
  split; [|split; [|split]].
  - intros e. apply get_cost_data_daily_raises.
  - intros response e. apply get_cost_data_forecast_raises.
  - intros response text. apply get_cost_data_forecast_unavailable.
  - intros cost_data t1 Hrun.
    destruct (ce_client w) as [[]|e] eqn:Hclient.
    2:{ rewrite (get_cost_data_client_raises e) in Hrun by exact Hclient. discriminate. }
    destruct (ce_cost_and_usage w) as [response|e] eqn:Hdaily.
    2:{ rewrite (get_cost_data_daily_raises e) in Hrun by assumption. discriminate. }
    destruct (ce_cost_forecast w) as [f|e] eqn:Hforecast.
    { rewrite (get_cost_data_forecast_returns response f) in Hrun by assumption.
      injection Hrun as <- _. split; [reflexivity | left; reflexivity]. }
    destruct (data_unavailable_dec e) as [[text ->]|Hother].
    + rewrite (get_cost_data_forecast_unavailable response text) in Hrun by assumption.
      injection Hrun as <- _. split; [reflexivity|]. right. exists text. auto.
    + rewrite (get_cost_data_forecast_raises response e) in Hrun by assumption.
      discriminate.
Qed.

End Fetcher.

(** ** Properties of the handler *)

Section Handler.
Import Float64 Formatter Notifier.
Local Open Scope list_scope.

Variable w : World.
Context {E C : Type}.
Variable event : E.
Variable context : C.

Lemma pipeline_succeeds (t0 t1 : trace) :
  stages_succeed w t0 t1 -> pipeline w t0 = (Return success_result, t1).
Proof.
  intros [cost_data message response t Hfetch Hformat Hnotify].
  unfold pipeline, bind, lift. rewrite Hfetch, Hformat, Hnotify. reflexivity.
Qed.

Lemma pipeline_raises (t0 t1 : trace) (e : exn) :
  stage_raises w t0 e t1 -> pipeline w t0 = (Raise e, t1).
Proof.
  intros [Hfetch | cost_data Hfetch Hformat | cost_data message t Hfetch Hformat Hnotify];
    unfold pipeline, bind, lift; rewrite Hfetch; try rewrite Hformat;
    try rewrite Hnotify; reflexivity.
Qed.

(** Either all stages succeed or one of them raises. *)
Lemma stages_total (t0 : trace) :
  (exists t1, stages_succeed w t0 t1) \/ (exists e t1, stage_raises w t0 e t1).
Proof.
  destruct (get_cost_data w t0) as [[cost_data|e] t] eqn:Hfetch.
  2:{ right. exists e, t. apply fetch_raises, Hfetch. }
  destruct (format_cost_message w cost_data) as [message|e] eqn:Hformat.
  2:{ right. exists e, t. eapply format_raises; eassumption. }
  destruct (notify_slack w message default_retry_count t) as [[response|e] t1] eqn:Hnotify.
  - left. exists t1. econstructor; eassumption.
  - right. exists e, t1. eapply notify_raises; eassumption.
Qed.

Lemma lambda_handler_success (t0 t1 : trace) :
  stages_succeed w t0 t1 ->
  lambda_handler w event context t0 = (Return success_result, t1).
Proof.
  intros Hok. unfold lambda_handler, try_except at 1.
  rewrite (pipeline_succeeds _ _ Hok). reflexivity.
Qed.

Lemma lambda_handler_failure (t0 t1 : trace) (e : exn) :
  stage_raises w t0 e t1 ->
  lambda_handler w event context t0 =
  (Return (failure_result e), trace_after_error w e t1).
Proof.
  intros Hraise. unfold lambda_handler, try_except at 1.
  rewrite (pipeline_raises _ _ _ Hraise).
  unfold trace_after_error, try_except, bind, print, emit, ret.
  fold (error_message_of e).
  destruct (notify_slack w (error_notification (error_message_of e))
              default_retry_count (t1 ++ [EvPrint (error_message_of e)]))
    as [[response|e'] t3]; reflexivity.
Qed.

(** C3: when fetch, format and notify all succeed the handler returns
    statusCode 200 with the JSON text of the fixed confirmation; when
    one of them raises [e] it returns statusCode 500 with the JSON text
    of "Error occurred: " followed by [str(e)], after logging it and
    calling notify_slack once with the error notification, whatever that
    call returns or raises; and the handler always returns one of the
    two. *)
Theorem lambda_handler_outcomes (t0 : trace) :
  (forall t1,
      stages_succeed w t0 t1 ->
      lambda_handler w event context t0 = (Return success_result, t1)) /\
  (forall e t1,
      stage_raises w t0 e t1 ->
      lambda_handler w event context t0 =
      (Return (failure_result e), trace_after_error w e t1)) /\
  ((exists t1, stages_succeed w t0 t1) \/ (exists e t1, stage_raises w t0 e t1)) /\
  statusCode success_result = 200 /\
  body success_result = Json.dumps "Cost notification sent successfully!" /\
  (forall e, statusCode (failure_result e) = 500 /\
             body (failure_result e) = Json.dumps ("Error occurred: " +:+ str_exn e)).
Proof.
  split; [intros t1; apply lambda_handler_success|].
  split; [intros e t1; apply lambda_handler_failure|].
  split; [apply stages_total|].
  repeat split.
Qed.

End Handler.

(** ** The unavailable forecast *)

Section Unavailable.
Import Float64 Formatter Notifier.
Local Open Scope list_scope.

Variable w : World.
Context {E C : Type}.
Variable event : E.
Variable context : C.

(** C4, as the code has it: when the forecast query raises the
    ClientError of code DataUnavailableException the fetcher puts the
    sentinel "N/A" in its place, the formatter shows the forecast as the
    text "データ不足", and with a daily response the formatter takes, the
    webhook configured and a POST accepted within the three attempts,
    the handler returns statusCode 200; a forecast amount that is a
    finite float literal is shown as a dollar sign and the amount with
    two decimal places. *)
Theorem forecast_unavailable_still_reports (t0 : trace) :
  (forall (daily : CostAndUsage) (text : string) (bucket : ResultByTime)
          (rest : list ResultByTime) (records : list CostRecord)
          (webhook_url : string) (errs : list string) (response : Response),
      ce_client w = Return tt ->
      ce_cost_and_usage w = Return daily ->
      ce_cost_forecast w = Raise (ClientError "DataUnavailableException" text) ->
      ResultsByTime daily = bucket :: rest ->
      group_records (Groups bucket) = Some records ->
      environ w !! "SLACK_WEBHOOK_URL" = Some webhook_url ->
      attempts_fail w (count_posts t0) webhook_url
        (report w (sort_by_amount_desc (kept records)) "データ不足") errs ->
      Z.of_nat (List.length errs) < default_retry_count ->
      attempt_outcome w (count_posts t0 + List.length errs) webhook_url
        (report w (sort_by_amount_desc (kept records)) "データ不足") = Return response ->
      get_cost_data w t0 =
        (Return {| daily_cost := daily; forecast := unavailable_forecast |},
         t0 ++ [EvGetCostAndUsage; EvGetCostForecast;
                EvPrint "予測データが利用できません。現在のコストのみ表示します。"]) /\
      Amount (Total unavailable_forecast) = "N/A" /\
      format_cost_message w {| daily_cost := daily; forecast := unavailable_forecast |} =
        Return (report w (sort_by_amount_desc (kept records)) "データ不足") /\
      forecast_field (report w (sort_by_amount_desc (kept records)) "データ不足") =
        Some ("*今月の予測総額:*" +:+ PyStr.LF +:+ "データ不足") /\
      lambda_handler w event context t0 =
        (Return success_result,
         t0 ++ [EvGetCostAndUsage; EvGetCostForecast;
                EvPrint "予測データが利用できません。現在のコストのみ表示します。"]
            ++ backoff_events webhook_url
                 (report w (sort_by_amount_desc (kept records)) "データ不足")
                 default_retry_count 0 errs
            ++ [EvPost webhook_url
                  (report w (sort_by_amount_desc (kept records)) "データ不足")]) /\
      statusCode success_result = 200)
  /\
  (forall (cost_data : CostData) (bucket : ResultByTime) (rest : list ResultByTime)
          (records : list CostRecord) (x : float),
      ResultsByTime (daily_cost cost_data) = bucket :: rest ->
      group_records (Groups bucket) = Some records ->
      Amount (Total (forecast cost_data)) <> "N/A" ->
      py_float (Amount (Total (forecast cost_data))) = Some x ->
      is_finite x = true ->
      forecast_shown w cost_data =
        Some ("*今月の予測総額:*" +:+ PyStr.LF +:+ "$" +:+ format_2f x) /\
      is_dollar_amount ("$" +:+ format_2f x) = true).
Proof.
  split.
  - intros daily text bucket rest records webhook_url errs response
      Hclient Hdaily Hforecast Hbucket Hrecords Henv Hfail Hlt Hok.
    set (message := report w (sort_by_amount_desc (kept records)) "データ不足") in *.
    set (t1 := t0 ++ [EvGetCostAndUsage; EvGetCostForecast;
                EvPrint "予測データが利用できません。現在のコストのみ表示します。"]).
    assert (Hfetch : get_cost_data w t0 =
              (Return {| daily_cost := daily; forecast := unavailable_forecast |}, t1))
      by (apply (get_cost_data_forecast_unavailable w daily text); assumption).
    assert (Hformat : format_cost_message w
              {| daily_cost := daily; forecast := unavailable_forecast |} = Return message).
    { apply format_cost_message_report. exists bucket, rest. repeat split; assumption. }
    assert (Hposts : count_posts t1 = count_posts t0).
    { unfold t1. rewrite count_posts_app. cbn. lia. }
    split; [exact Hfetch|]. split; [reflexivity|]. split; [exact Hformat|].
    split; [reflexivity|]. split; [|reflexivity].
    apply lambda_handler_success.
    econstructor; [exact Hfetch | exact Hformat |].
    rewrite (notify_slack_succeeds w message default_retry_count t1
               webhook_url errs response); rewrite ?Hposts; try assumption.
    unfold t1. rewrite <- !app_assoc. reflexivity.
  - intros cost_data bucket rest records x Hbucket Hrecords Hna Hfloat Hfinite.
    split; [|apply FormatFacts.format_2f_dollar_amount, Hfinite].
    unfold forecast_shown.
    rewrite (format_cost_message_report w cost_data records ("$" +:+ format_2f x)).
    + reflexivity.
    + exists bucket, rest. repeat split; try assumption.
      unfold forecast_display. rewrite Hfloat.
      destruct (String.eqb_spec (Amount (Total (forecast cost_data))) "N/A");
        [contradiction | reflexivity].
Qed.

End Unavailable.

(** ** The properties at sample inputs *)

Section Samples.
Import Float64.
Local Open Scope list_scope.

Lemma sample_well_formed (groups : list Group) (records : list CostRecord) :
  group_records groups = Some records ->
  well_formed (sample_data groups) records "$123.46".
Proof.
  intros Hrecords. exists {| Groups := groups |}, [].
  split; [reflexivity|]. split; [exact Hrecords|]. vm_compute. reflexivity.
Qed.

(** C1 on the scenario, with a forecast of 123.456 dollars. *)
Lemma format_cost_message_drops_noise_scenario :
  well_formed (sample_data scenario_groups) (records_of scenario_groups) "$123.46" /\
  exists message,
    format_cost_message (steady_world scenario_groups) (sample_data scenario_groups)
      = Return message /\
    total_field message = Some ("*昨日の総利用料金:*" +:+ PyStr.LF +:+ "$19.75").
Proof.
  assert (Hwf : well_formed (sample_data scenario_groups)
                  (records_of scenario_groups) "$123.46")
    by (apply sample_well_formed; vm_compute; reflexivity).
  split; [exact Hwf|].
  destruct (proj1 (format_cost_message_drops_noise (steady_world scenario_groups))
              _ _ _ Hwf) as (message & Hrun & _ & _ & _ & _ & Htotal).
  exists message. split; [exact Hrun|].
  rewrite Htotal. vm_compute. reflexivity.
Defined.

(** C5 on two services of equal amount around a dearer one: Y comes
    first, then X and Z in the order of the response. *)
Lemma ranked_services_descending_stable_ties :
  well_formed (sample_data tied_groups) (records_of tied_groups) "$123.46" /\
  map fst (sort_by_amount_desc (kept (records_of tied_groups))) = ["Y"; "X"; "Z"] /\
  exists message,
    format_cost_message (steady_world tied_groups) (sample_data tied_groups)
      = Return message /\
    itemized_text message =
      Some ("*サービス別内訳:*" +:+ PyStr.LF +:+ "• Y: $7.25" +:+ PyStr.LF
            +:+ "• X: $5.00" +:+ PyStr.LF +:+ "• Z: $5.00" +:+ PyStr.LF) /\
    descending (sort_by_amount_desc (kept (records_of tied_groups))).
Proof.
  assert (Hwf : well_formed (sample_data tied_groups) (records_of tied_groups) "$123.46")
    by (apply sample_well_formed; vm_compute; reflexivity).
  split; [exact Hwf|]. split; [vm_compute; reflexivity|].
  destruct (ranked_services_descending_stable (steady_world tied_groups) _ _ _ Hwf)
    as (message & Hrun & Hitems & _ & Hdesc & _).
  exists message. split; [exact Hrun|]. split; [|exact Hdesc].
  rewrite Hitems. vm_compute. reflexivity.
Defined.

(** C6 on twelve services: ten are listed, and the total is that of the
    twelve, 78 dollars, not of the ten listed, 75 dollars. *)
Lemma itemized_top_ten_total_of_all_twelve :
  well_formed (sample_data twelve_groups) (records_of twelve_groups) "$123.46" /\
  List.length (kept (records_of twelve_groups)) = 12%nat /\
  exists message shown,
    format_cost_message (steady_world twelve_groups) (sample_data twelve_groups)
      = Return message /\
    itemized_text message = Some (itemized shown) /\
    map fst shown = ["S12"; "S11"; "S10"; "S09"; "S08"; "S07"; "S06"; "S05"; "S04"; "S03"] /\
    total_field message = Some ("*昨日の総利用料金:*" +:+ PyStr.LF +:+ "$78.00").
Proof.
  assert (Hwf : well_formed (sample_data twelve_groups) (records_of twelve_groups) "$123.46")
    by (apply sample_well_formed; vm_compute; reflexivity).
  split; [exact Hwf|]. split; [vm_compute; reflexivity|].
  destruct (itemized_top_ten_total_of_all (steady_world twelve_groups) _ _ _ Hwf)
    as (message & shown & Hrun & Hshown & Hitems & _ & _ & _ & Htotal).
  exists message, shown. split; [exact Hrun|]. split; [exact Hitems|].
  split; [rewrite Hshown; vm_compute; reflexivity|].
  rewrite Htotal. vm_compute. reflexivity.
Defined.

(** C2 where the webhook answers 500 twice and accepts the third POST,
    and where it answers 500 to all three. *)
Lemma notify_slack_retry_policy_flaky_and_failing :
  notify_slack flaky_world (error_notification "probe") 3 [] =
    (Return (Some ok_response),
     [ EvPost sample_url (error_notification "probe");
       EvPrint ("Retry 1/3 failed: " +:+ server_error_text);
       EvSleep 1;
       EvPost sample_url (error_notification "probe");
       EvPrint ("Retry 2/3 failed: " +:+ server_error_text);
       EvSleep 1;
       EvPost sample_url (error_notification "probe") ]) /\
  notify_slack failing_world (error_notification "probe") 3 [] =
    (Raise (RequestException server_error_text),
     [ EvPost sample_url (error_notification "probe");
       EvPrint ("Retry 1/3 failed: " +:+ server_error_text);
       EvSleep 1;
       EvPost sample_url (error_notification "probe");
       EvPrint ("Retry 2/3 failed: " +:+ server_error_text);
       EvSleep 1;
       EvPost sample_url (error_notification "probe");
       EvPrint ("Failed to send Slack notification after 3 attempts: "
                +:+ server_error_text) ]).
Proof.
  split.
  - destruct (notify_slack_retry_policy flaky_world (error_notification "probe") 3 [])
      as (_ & _ & _ & Hsuccess & _).
    rewrite (Hsuccess sample_url [server_error_text; server_error_text] ok_response).
    + vm_compute. reflexivity.
    + vm_compute. reflexivity.
    + vm_compute. repeat split.
    + vm_compute. reflexivity.
    + vm_compute. reflexivity.
  - destruct (notify_slack_retry_policy failing_world (error_notification "probe") 3 [])
      as (_ & _ & _ & _ & Hexhausted).
    rewrite (Hexhausted sample_url [server_error_text; server_error_text] server_error_text).
    + vm_compute. reflexivity.
    + vm_compute. reflexivity.
    + vm_compute. repeat split.
    + vm_compute. reflexivity.
Defined.

(** C8 where the environment is empty. *)
Lemma notify_slack_unconfigured_fails_empty_environ :
  environ (unconfigured_world (daily_of scenario_groups) (Return sample_forecast)
             (fun _ => Return ok_response)) !! "SLACK_WEBHOOK_URL" = None /\
  notify_slack (unconfigured_world (daily_of scenario_groups) (Return sample_forecast)
                  (fun _ => Return ok_response))
    (error_notification "probe") 3 [] = (Raise (KeyError "SLACK_WEBHOOK_URL"), []).
Proof.
  split; [reflexivity|].
  apply (notify_slack_unconfigured_fails
           (unconfigured_world (daily_of scenario_groups) (Return sample_forecast)
              (fun _ => Return ok_response))
           (error_notification "probe") 3 []).
  reflexivity.
Defined.

(** C9 with [retry_count = 0] and with [retry_count = -2], where the
    webhook would answer 500. *)
Lemma notify_slack_no_attempts_zero_and_negative :
  notify_slack failing_world (error_notification "probe") 0 [] = (Return None, []) /\
  notify_slack failing_world (error_notification "probe") (-2) [] = (Return None, []).
Proof.
  split.
  - destruct (notify_slack_no_attempts failing_world (error_notification "probe") 0 [])
      as (_ & _ & Hnone); [lia|].
    apply (Hnone sample_url). reflexivity.
  - destruct (notify_slack_no_attempts failing_world (error_notification "probe") (-2) [])
      as (_ & _ & Hnone); [lia|].
    apply (Hnone sample_url). reflexivity.
Defined.

(** C10 where the second POST raises an exception that is no request
    exception. *)
Lemma notify_slack_other_exception_propagates_second_attempt :
  notify_slack broken_world (error_notification "probe") 3 [] =
    (Raise (OtherException "maximum recursion depth exceeded"),
     [ EvPost sample_url (error_notification "probe");
       EvPrint ("Retry 1/3 failed: " +:+ server_error_text);
       EvSleep 1;
       EvPost sample_url (error_notification "probe") ]).
Proof.
  destruct (notify_slack_other_exception_propagates broken_world
              (error_notification "probe") 3 [] sample_url [server_error_text]
              (OtherException "maximum recursion depth exceeded")) as [Hrun _].
  - reflexivity.
  - vm_compute. repeat split.
  - vm_compute. reflexivity.
  - vm_compute. reflexivity.
  - reflexivity.
  - rewrite Hrun. vm_compute. reflexivity.
Defined.

(** C7 where the daily-cost query is refused, and where the forecast
    query is throttled. *)
Lemma get_cost_data_recovers_only_unavailable_refused_and_throttled :
  get_cost_data denied_world [] =
    (Raise access_denied,
     [EvGetCostAndUsage; EvPrint ("Unexpected error: " +:+ str_exn access_denied)]) /\
  get_cost_data throttled_world [] =
    (Raise throttled,
     [EvGetCostAndUsage; EvGetCostForecast;
      EvPrint ("Unexpected error: " +:+ str_exn throttled)]) /\
  get_cost_data unavailable_world [] =
    (Return unavailable_data,
     [EvGetCostAndUsage; EvGetCostForecast;
      EvPrint "予測データが利用できません。現在のコストのみ表示します。"]).
Proof.
  split; [|split].
  - apply (proj1 (get_cost_data_recovers_only_unavailable denied_world []));
      reflexivity.
  - apply (proj1 (proj2 (get_cost_data_recovers_only_unavailable throttled_world []))
             (daily_of scenario_groups)); try reflexivity.
    intros text. discriminate.
  - apply (proj1 (proj2 (proj2
             (get_cost_data_recovers_only_unavailable unavailable_world [])))
             (daily_of scenario_groups) unavailable_text); reflexivity.
Defined.

(** C3 where the webhook answers 500 to every POST: the handler returns
    500 with the error of the third attempt, after three more POSTs of
    the error notification; and where the webhook accepts the POST. *)
Lemma lambda_handler_outcomes_webhook_down_and_up :
  fst (lambda_handler failing_world tt tt []) =
    Return {| statusCode := 500;
              body := Json.dumps ("Error occurred: " +:+ server_error_text) |} /\
  count_posts (snd (lambda_handler failing_world tt tt [])) = 6%nat /\
  lambda_handler (steady_world scenario_groups) tt tt [] =
    (Return success_result,
     [ EvGetCostAndUsage; EvGetCostForecast;
       EvPost sample_url
         (report (steady_world scenario_groups) scenario_ranked "$123.46") ]).
Proof.
  assert (Hdown : stage_raises failing_world [] (RequestException server_error_text)
                    (snd (pipeline failing_world []))).
  { apply (notify_raises failing_world [] _ _ (sample_data scenario_groups)
             (report failing_world scenario_ranked "$123.46")
             [EvGetCostAndUsage; EvGetCostForecast]); vm_compute; reflexivity. }
  assert (Hup : stages_succeed (steady_world scenario_groups) []
                  [ EvGetCostAndUsage; EvGetCostForecast;
                    EvPost sample_url
                      (report (steady_world scenario_groups) scenario_ranked "$123.46") ]).
  { apply (all_succeed (steady_world scenario_groups) [] _ (sample_data scenario_groups)
             (report (steady_world scenario_groups) scenario_ranked "$123.46")
             (Some ok_response) [EvGetCostAndUsage; EvGetCostForecast]);
      vm_compute; reflexivity. }
  destruct (lambda_handler_outcomes failing_world tt tt []) as (_ & Hfailure & _).
  destruct (lambda_handler_outcomes (steady_world scenario_groups) tt tt [])
    as (Hsuccess & _).
  rewrite (Hfailure _ _ Hdown), (Hsuccess _ Hup).
  split; [reflexivity|]. split; [vm_compute; reflexivity | reflexivity].
Defined.

(** C4 with the text "insufficient data" fails where the forecast is
    unavailable: the forecast field shows "データ不足", and the words
    "insufficient data" are nowhere in it. *)
Lemma forecast_unavailable_not_in_english :
  get_cost_data unavailable_world [] =
    (Return unavailable_data,
     [EvGetCostAndUsage; EvGetCostForecast;
      EvPrint "予測データが利用できません。現在のコストのみ表示します。"]) /\
  forecast_shown unavailable_world unavailable_data =
    Some ("*今月の予測総額:*" +:+ PyStr.LF +:+ "データ不足") /\
  forecast_shown unavailable_world unavailable_data <>
    Some ("*今月の予測総額:*" +:+ PyStr.LF +:+ "insufficient data") /\
  contains "insufficient data" ("*今月の予測総額:*" +:+ PyStr.LF +:+ "データ不足") = false.
Proof.
  split; [vm_compute; reflexivity|].
  split; [vm_compute; reflexivity|].
  split; [vm_compute; discriminate | vm_compute; reflexivity].
Qed.

(** C4, as the code has it, where the forecast is unavailable and the
    webhook accepts the POST, and for a forecast of 123.456 dollars. *)
Lemma forecast_unavailable_still_reports_scenario :
  lambda_handler unavailable_world tt tt [] =
    (Return success_result,
     [ EvGetCostAndUsage; EvGetCostForecast;
       EvPrint "予測データが利用できません。現在のコストのみ表示します。";
       EvPost sample_url (report unavailable_world scenario_ranked "データ不足") ]) /\
  forecast_shown (steady_world scenario_groups) (sample_data scenario_groups) =
    Some ("*今月の予測総額:*" +:+ PyStr.LF +:+ "$123.46").
Proof.
  destruct (forecast_unavailable_still_reports unavailable_world tt tt [])
    as [Hunavailable _].
  destruct (forecast_unavailable_still_reports (steady_world scenario_groups) tt tt [])
    as [_ Hotherwise].
  split.
  - destruct (Hunavailable (daily_of scenario_groups) unavailable_text
                {| Groups := scenario_groups |} [] (records_of scenario_groups)
                sample_url [] ok_response)
      as (_ & _ & _ & _ & Hrun & _);
      [ first [ reflexivity | vm_compute; reflexivity | vm_compute; exact I ] ..
      | rewrite Hrun; vm_compute; reflexivity ].
  - destruct (Hotherwise (sample_data scenario_groups) {| Groups := scenario_groups |} []
                (records_of scenario_groups)
                (of_decimal false 123456 (-3)))
      as [Hshown _];
      [ first [ reflexivity | vm_compute; reflexivity | discriminate ] ..
      | rewrite Hshown; vm_compute; reflexivity ].
Defined.

End Samples.

(** ** Further properties of the formatter *)

Section FormatterOutcomes.
Import Float64 Float64Facts Formatter SortFacts.

Variable w : World.



(** X2: when no record of the response is above the threshold, as when
    it has no group at all, the total is shown as $0.00 and the itemized
    section holds its heading alone. *)
Theorem format_cost_message_nothing_kept
    (cost_data : CostData) (records : list CostRecord) (display : string) :
  well_formed cost_data records display ->
  kept records = [] ->
  exists message,
    format_cost_message w cost_data = Return message /\
    total_field message = Some ("*昨日の総利用料金:*" +:+ PyStr.LF +:+ "$0.00") /\
    itemized_text message = Some ("*サービス別内訳:*" +:+ PyStr.LF).
Proof.
  intros Hwf Hkept.
  exists (report w (sort_by_amount_desc (kept records)) display).
  split; [apply format_cost_message_report, Hwf|].
  rewrite Hkept. unfold report, total_field, itemized_text, total_line, py_sum.
  cbn [blocks sort_by_amount_desc fold_right map firstn].
  split; [destruct (compensated_sum w); reflexivity | reflexivity].
Qed.

Lemma kept_perm (r1 r2 : list CostRecord) :
  Permutation r1 r2 -> Permutation (kept r1) (kept r2).
Proof.
  unfold kept. induction 1 as [|x l l' _ IH|x y l|l l' l'' _ IH1 _ IH2];
    cbn [List.filter].
  - constructor.
  - destruct (above_threshold x); [constructor|]; exact IH.
  - destruct (above_threshold x), (above_threshold y);
      try reflexivity. apply perm_swap.
  - etransitivity; eassumption.
Qed.

Lemma filter_kept (v : float) (records : list CostRecord) :
  List.filter (same_amount v) (kept records) = kept (List.filter (same_amount v) records).
Proof.
  unfold kept. induction records as [|r records IH]; [reflexivity|].
  cbn [List.filter].
  destruct (above_threshold r) eqn:Ha, (same_amount v r) eqn:Hs;
    cbn [List.filter]; rewrite ?Ha, ?Hs, IH; reflexivity.
Qed.

(** X3: the report does not depend on the order of the groups in the
    response, but for records of equal amount: two responses with the
    same records, those of each amount in the same order, and the same
    forecast give the same message. *)
Theorem format_cost_message_order_independent
    (cost_data1 cost_data2 : CostData) (records1 records2 : list CostRecord)
    (display : string) :
  well_formed cost_data1 records1 display ->
  well_formed cost_data2 records2 display ->
  Permutation records1 records2 ->
  (forall v, List.filter (same_amount v) records1 = List.filter (same_amount v) records2) ->
  format_cost_message w cost_data1 = format_cost_message w cost_data2.
Proof.
  intros Hwf1 Hwf2 Hperm Hties.
  rewrite (format_cost_message_report w cost_data1 records1 display Hwf1).
  rewrite (format_cost_message_report w cost_data2 records2 display Hwf2).
  do 2 f_equal.
  apply sort_by_amount_desc_unique.
  - apply kept_not_nan.
  - rewrite sort_perm. apply kept_perm, Hperm.
  - apply sort_descending, kept_not_nan.
  - intros v. rewrite sort_ties_in_order, !filter_kept, Hties. reflexivity.
Qed.

End FormatterOutcomes.

(** ** Further properties of the notifier *)

Section NotifierOutcomes.
Import Notifier.
Local Open Scope list_scope.

Variable w : World.
Variable message : Message.

Lemma notify_loop_events (webhook_url : string) (retry_count : Z) (attempts : list Z) :
  forall t,
    exists evs,
      snd (notify_loop w webhook_url message retry_count attempts t) = t ++ evs /\
      Forall (notifier_event webhook_url message) evs.
Proof.
  assert (Hpost : notifier_event webhook_url message (EvPost webhook_url message))
    by (left; reflexivity).
  assert (Hsleep : notifier_event webhook_url message (EvSleep 1))
    by (right; left; reflexivity).
  assert (Hprint : forall text, notifier_event webhook_url message (EvPrint text))
    by (intros text; right; right; exists text; reflexivity).
  induction attempts as [|attempt attempts IH]; intros t.
  - exists []. cbn. rewrite app_nil_r. auto.
  - rewrite notify_loop_cons.
    destruct (attempt_outcome w (count_posts t) webhook_url message) as [response|e].
    { exists [EvPost webhook_url message]. cbn [snd]. auto. }
    destruct (is_RequestException e).
    2:{ exists [EvPost webhook_url message]. cbn [snd]. auto. }
    destruct (attempt =? retry_count - 1).
    { eexists [EvPost webhook_url message; EvPrint _]. cbn [snd]. auto. }
    destruct (IH (t ++ [EvPost webhook_url message;
                        EvPrint ("Retry " +:+ PyStr.str_of_int (attempt + 1) +:+ "/"
                                 +:+ PyStr.str_of_int retry_count
                                 +:+ " failed: " +:+ str_exn e);
                        EvSleep 1])) as (evs & Hevs & Hall).
    eexists ([EvPost webhook_url message; EvPrint _; EvSleep 1] ++ evs).
    rewrite Hevs, <- app_assoc. split; [reflexivity|].
    cbn [app]. auto.
Qed.

Lemma notify_loop_not_none (webhook_url : string) (retry_count : Z) (k : nat) :
  forall (j : nat) (t : trace),
    k <> O -> Z.of_nat (j + k) = retry_count ->
    fst (notify_loop w webhook_url message retry_count (map Z.of_nat (seq j k)) t)
    <> Return None.
Proof.
  induction k as [|k IH]; intros j t Hk Hlast; [congruence|].
  cbn [seq map]. rewrite notify_loop_cons.
  destruct (attempt_outcome w (count_posts t) webhook_url message) as [response|e];
    [discriminate|].
  destruct (is_RequestException e); [|discriminate].
  destruct (Z.eqb_spec (Z.of_nat j) (retry_count - 1)) as [Heq|Hne]; [discriminate|].
  apply IH; lia.
Qed.

(** X4: notify_slack returns None exactly when [retry_count <= 0] and
    the webhook is configured; with [retry_count >= 1] it returns the
    response of a POST or raises. *)
Theorem notify_slack_none_iff (retry_count : Z) (t0 : trace) :
  fst (notify_slack w message retry_count t0) = Return None <->
  retry_count <= 0 /\ exists webhook_url, environ w !! "SLACK_WEBHOOK_URL" = Some webhook_url.
Proof.
  destruct (environ w !! "SLACK_WEBHOOK_URL") as [webhook_url|] eqn:Henv.
  - rewrite (notify_slack_configured w message webhook_url) by exact Henv.
    split.
    + intros Hnone. split; [|eauto].
      destruct (Z.le_gt_cases retry_count 0) as [Hle|Hgt]; [exact Hle|].
      exfalso. revert Hnone. unfold py_range.
      apply notify_loop_not_none; cbn [Nat.add]; lia.
    + intros [Hle _]. unfold py_range.
      replace (Z.to_nat retry_count) with 0%nat by lia. reflexivity.
  - rewrite notify_slack_unconfigured by exact Henv. cbn [fst].
    split; [discriminate|]. intros [_ [webhook_url Hsome]]. discriminate.
Qed.

(** X5: the events of a call of notify_slack are POSTs of its payload to
    the URL of SLACK_WEBHOOK_URL, backoffs of one second and log lines,
    and none at all when the variable is absent: the call posts nothing
    else, nowhere else, and sends no query. *)
Theorem notify_slack_events (retry_count : Z) (t0 : trace) :
  exists evs,
    snd (notify_slack w message retry_count t0) = t0 ++ evs /\
    (forall webhook_url,
        environ w !! "SLACK_WEBHOOK_URL" = Some webhook_url ->
        Forall (notifier_event webhook_url message) evs) /\
    (environ w !! "SLACK_WEBHOOK_URL" = None -> evs = []).
Proof.
  destruct (environ w !! "SLACK_WEBHOOK_URL") as [webhook_url|] eqn:Henv.
  - rewrite (notify_slack_configured w message webhook_url) by exact Henv.
    destruct (notify_loop_events webhook_url retry_count (py_range retry_count) t0)
      as (evs & Hevs & Hall).
    exists evs. split; [exact Hevs|]. split; [|discriminate].
    intros url' [= <-]. exact Hall.
  - rewrite notify_slack_unconfigured by exact Henv.
    exists []. cbn [snd]. rewrite app_nil_r. split; [reflexivity|].
    split; [discriminate | reflexivity].
Qed.

(** X6: a response whose status is below 400 or above 599, a 304 as
    much as a 200, ends the call at once as a success: raise_for_status
    raises for the statuses 400 to 599 alone. *)
Theorem notify_slack_accepts_other_status
    (retry_count : Z) (t0 : trace) (webhook_url : string) (response : Response) :
  environ w !! "SLACK_WEBHOOK_URL" = Some webhook_url ->
  1 <= retry_count ->
  post_result w (count_posts t0) webhook_url message = Return response ->
  status_code response < 400 \/ 600 <= status_code response ->
  notify_slack w message retry_count t0 =
  (Return (Some response), t0 ++ [EvPost webhook_url message]).
Proof.
  intros Henv Hrc Hpost Hstatus.
  rewrite (notify_slack_succeeds w message retry_count t0 webhook_url [] response Henv).
  - reflexivity.
  - exact I.
  - cbn [List.length]. lia.
  - cbn [List.length]. rewrite Nat.add_0_r.
    apply (attempt_outcome_status w _ webhook_url message response Hpost), Hstatus.
Qed.

End NotifierOutcomes.

(** ** Facts about traces *)

Module TraceFacts.
Import Notifier.
Local Open Scope list_scope.

Lemma count_cost_queries_app (t t' : trace) :
  count_cost_queries (t ++ t') = (count_cost_queries t + count_cost_queries t')%nat.
Proof. unfold count_cost_queries. rewrite List.filter_app, length_app. reflexivity. Qed.

Lemma count_forecast_queries_app (t t' : trace) :
  count_forecast_queries (t ++ t')
  = (count_forecast_queries t + count_forecast_queries t')%nat.
Proof. unfold count_forecast_queries. rewrite List.filter_app, length_app. reflexivity. Qed.

Lemma trace_within_nil : trace_within 0 0 0 0 [].
Proof. repeat split; cbn; auto. Qed.

Lemma trace_within_print (text : string) : trace_within 0 0 0 0 [EvPrint text].
Proof. repeat split; cbn; auto. repeat constructor. discriminate. Qed.

Lemma trace_within_app (p s c f p' s' c' f' : nat) (evs evs' : trace) :
  trace_within p s c f evs -> trace_within p' s' c' f' evs' ->
  trace_within (p + p') (s + s') (c + c') (f + f') (evs ++ evs').
Proof.
  intros (Hp & Hs & Hc & Hf & Hone) (Hp' & Hs' & Hc' & Hf' & Hone').
  unfold trace_within.
  rewrite count_posts_app, count_sleeps_app, count_cost_queries_app,
    count_forecast_queries_app.
  repeat split; try lia. apply Forall_app. auto.
Qed.

Lemma trace_within_le (p s c f p' s' c' f' : nat) (evs : trace) :
  trace_within p s c f evs ->
  (p <= p')%nat -> (s <= s')%nat -> (c <= c')%nat -> (f <= f')%nat ->
  trace_within p' s' c' f' evs.
Proof.
  intros (Hp & Hs & Hc & Hf & Hone) ? ? ? ?. repeat split; try lia. exact Hone.
Qed.

(** The events of the notifier hold no query, and their POSTs carry its
    payload. *)
Lemma notifier_events_no_query (webhook_url : string) (message : Message) (evs : trace) :
  Forall (notifier_event webhook_url message) evs ->
  count_cost_queries evs = 0%nat /\ count_forecast_queries evs = 0%nat /\
  posts_carry message evs.
Proof.
  unfold posts_carry.
  induction 1 as [|ev evs Hev _ (IHc & IHf & IHp)]; [repeat split; constructor|].
  destruct Hev as [-> | [-> | [text ->]]]; cbn; repeat split; auto;
    constructor; auto; try discriminate.
  intros _. exists webhook_url. reflexivity.
Qed.

(** What one call of the notifier adds to the trace. *)
Lemma notify_slack_trace (w : World) (message : Message) (retry_count : Z) (t : trace) :
  exists evs,
    snd (notify_slack w message retry_count t) = t ++ evs /\
    trace_within (Z.to_nat retry_count) (Z.to_nat retry_count - 1) 0 0 evs /\
    posts_carry message evs.
Proof.
  destruct (notify_slack_discipline w message retry_count t)
    as (evs & Hevs & Hposts & Hsleeps & Hone & _).
  exists evs. split; [exact Hevs|].
  assert (Hq : count_cost_queries evs = 0%nat /\ count_forecast_queries evs = 0%nat /\
               posts_carry message evs).
  { destruct (environ w !! "SLACK_WEBHOOK_URL") as [webhook_url|] eqn:Henv.
    - rewrite (notify_slack_configured w message webhook_url) in Hevs by exact Henv.
      destruct (notify_loop_events w message webhook_url retry_count
                  (py_range retry_count) t) as (evs' & Hevs' & Hall).
      rewrite Hevs in Hevs'. apply app_inv_head in Hevs'. subst evs'.
      eapply notifier_events_no_query, Hall.
    - rewrite notify_slack_unconfigured in Hevs by exact Henv. cbn [snd] in Hevs.
      rewrite <- (app_nil_r t) in Hevs at 1. apply app_inv_head in Hevs. subst evs.
      repeat split; constructor. }
  destruct Hq as (Hc & Hf & Hcarry).
  split; [|exact Hcarry].
  repeat split; try lia. exact Hone.
Qed.

(** What the fetcher adds to the trace. *)
Lemma get_cost_data_trace (w : World) (t : trace) :
  exists evs,
    snd (get_cost_data w t) = t ++ evs /\
    trace_within 0 0 1 1 evs /\
    Forall (fun ev => is_post ev = false) evs /\
    (In EvGetCostAndUsage evs -> ce_client w = Return tt) /\
    (In EvGetCostForecast evs -> exists response, ce_cost_and_usage w = Return response).
Proof.
  destruct (ce_client w) as [[]|e] eqn:Hclient.
  2:{ rewrite (get_cost_data_client_raises w e) by exact Hclient.
      exists []. cbn [snd]. rewrite app_nil_r. split; [reflexivity|].
      split; [apply trace_within_le with (1 := trace_within_nil); lia|].
      split; [constructor|]. split; intros []. }
  destruct (ce_cost_and_usage w) as [response|e] eqn:Hdaily.
  2:{ rewrite (get_cost_data_daily_raises w e) by assumption.
      eexists. cbn [snd]. split; [reflexivity|].
      split; [repeat split; cbn; auto; repeat constructor; discriminate|].
      split; [repeat constructor|]. split; [reflexivity|].
      intros [H|[H|[]]]; discriminate. }
  destruct (ce_cost_forecast w) as [f|e] eqn:Hforecast.
  { rewrite (get_cost_data_forecast_returns w response f) by assumption.
    eexists. cbn [snd]. split; [reflexivity|].
    split; [repeat split; cbn; auto; repeat constructor; discriminate|].
    split; [repeat constructor|]. split; [reflexivity | eauto]. }
  destruct (data_unavailable_dec e) as [[text ->]|Hother].
  - rewrite (get_cost_data_forecast_unavailable w response text) by assumption.
    eexists. cbn [snd]. split; [reflexivity|].
    split; [repeat split; cbn; auto; repeat constructor; discriminate|].
    split; [repeat constructor|]. split; [reflexivity | eauto].
  - rewrite (get_cost_data_forecast_raises w response e) by assumption.
    eexists. cbn [snd]. split; [reflexivity|].
    split; [repeat split; cbn; auto; repeat constructor; discriminate|].
    split; [repeat constructor|]. split; [reflexivity | eauto].
Qed.

End TraceFacts.

(** ** Further properties of the fetcher and the handler *)

Section HandlerOutcomes.
Import Notifier TraceFacts.
Local Open Scope list_scope.

Variable w : World.
Context {E C : Type}.
Variable event : E.
Variable context : C.




Lemma trace_after_error_trace (e : exn) (t1 : trace) :
  exists evs,
    trace_after_error w e t1 = t1 ++ evs /\
    trace_within 3 2 0 0 evs /\
    posts_carry (error_notification (error_message_of e)) evs.
Proof.
  unfold trace_after_error.
  destruct (notify_slack_trace w (error_notification (error_message_of e))
              default_retry_count (t1 ++ [EvPrint (error_message_of e)]))
    as (evs & Hevs & Hin & Hcarry).
  assert (Hin3 : trace_within 3 2 0 0 evs)
    by (apply trace_within_le with (1 := Hin); unfold default_retry_count; lia).
  destruct (notify_slack w (error_notification (error_message_of e))
              default_retry_count (t1 ++ [EvPrint (error_message_of e)]))
    as [[response|e'] t3]; cbn [snd] in Hevs; subst t3.
  - exists ([EvPrint (error_message_of e)] ++ evs).
    rewrite <- app_assoc. split; [reflexivity|]. split.
    + apply (trace_within_app 0 0 0 0 3 2 0 0); [apply trace_within_print | exact Hin3].
    + constructor; [discriminate | exact Hcarry].
  - exists ([EvPrint (error_message_of e)] ++ evs
            ++ [EvPrint "Failed to send error notification to Slack"]).
    rewrite <- !app_assoc. split; [reflexivity|]. split.
    + apply (trace_within_app 0 0 0 0 3 2 0 0); [apply trace_within_print|].
      apply trace_within_le
        with (1 := trace_within_app _ _ _ _ _ _ _ _ _ _ Hin3 (trace_within_print _));
        lia.
    + constructor; [discriminate|]. apply Forall_app. split; [exact Hcarry|].
      constructor; [discriminate | constructor].
Qed.


(** X9: with no SLACK_WEBHOOK_URL in the environment the handler returns
    statusCode 500 on every invocation and posts nothing: the error
    notification fails on the same lookup, which only adds the log line;
    when fetch and format succeeded, the error reported is the KeyError
    of the variable. *)
Theorem lambda_handler_unconfigured (t0 : trace) :
  environ w !! "SLACK_WEBHOOK_URL" = None ->
  exists e t1,
    lambda_handler w event context t0 =
      (Return (failure_result e),
       t1 ++ [EvPrint (error_message_of e);
              EvPrint "Failed to send error notification to Slack"]) /\
    statusCode (failure_result e) = 500 /\
    count_posts (snd (lambda_handler w event context t0)) = count_posts t0 /\
    (forall cost_data message t,
        get_cost_data w t0 = (Return cost_data, t) ->
        format_cost_message w cost_data = Return message ->
        e = KeyError "SLACK_WEBHOOK_URL").
Proof.
  intros Henv.
  assert (Hafter : forall e t1,
             trace_after_error w e t1 =
             t1 ++ [EvPrint (error_message_of e);
                    EvPrint "Failed to send error notification to Slack"]).
  { intros e t1. unfold trace_after_error.
    rewrite notify_slack_unconfigured by exact Henv. rewrite <- app_assoc. reflexivity. }
  destruct (get_cost_data_trace w t0) as (evs1 & Hevs1 & (Hp1 & _) & _).
  assert (Hfinish : forall e t1,
             stage_raises w t0 e t1 -> t1 = t0 ++ evs1 ->
             lambda_handler w event context t0 =
               (Return (failure_result e),
                t1 ++ [EvPrint (error_message_of e);
                       EvPrint "Failed to send error notification to Slack"]) /\
             statusCode (failure_result e) = 500 /\
             count_posts (snd (lambda_handler w event context t0)) = count_posts t0).
  { intros e t1 Hraise ->.
    rewrite (lambda_handler_failure w event context t0 _ e Hraise), Hafter.
    split; [reflexivity|]. split; [reflexivity|].
    cbn [snd]. rewrite !count_posts_app. cbn. lia. }
  destruct (get_cost_data w t0) as [[cost_data|e] t] eqn:Hfetch; cbn [snd] in Hevs1.
  2:{ exists e, t. destruct (Hfinish e t (fetch_raises w t0 e t Hfetch) Hevs1)
        as (Hrun & Hcode & Hposts).
      repeat split; try assumption. intros ? ? ? [=]. }
  destruct (format_cost_message w cost_data) as [message|e] eqn:Hformat.
  2:{ exists e, t.
      destruct (Hfinish e t (format_raises w t0 e t cost_data Hfetch Hformat) Hevs1)
        as (Hrun & Hcode & Hposts).
      repeat split; try assumption.
      intros cost_data' message' t' [= <- _] Hformat'. congruence. }
  exists (KeyError "SLACK_WEBHOOK_URL"), t.
  assert (Hnotify : notify_slack w message default_retry_count t =
                    (Raise (KeyError "SLACK_WEBHOOK_URL"), t))
    by (apply notify_slack_unconfigured, Henv).
  destruct (Hfinish _ t (notify_raises w t0 _ t cost_data message t Hfetch Hformat Hnotify)
              Hevs1) as (Hrun & Hcode & Hposts).
  repeat split; try assumption.
Qed.

(** X10: when fetch or format raises, the report is never posted: every
    POST of the invocation carries the error notification with the text
    of the error, the handler returns statusCode 500, and when the
    webhook accepts the first POST this one POST is all that follows the
    log line. *)
Theorem lambda_handler_early_failure (t0 t1 : trace) (e : exn) :
  get_cost_data w t0 = (Raise e, t1) \/
  (exists cost_data,
      get_cost_data w t0 = (Return cost_data, t1) /\
      format_cost_message w cost_data = Raise e) ->
  fst (lambda_handler w event context t0) = Return (failure_result e) /\
  (exists evs,
      snd (lambda_handler w event context t0) = t0 ++ evs /\
      posts_carry (error_notification (error_message_of e)) evs) /\
  (forall webhook_url response,
      environ w !! "SLACK_WEBHOOK_URL" = Some webhook_url ->
      attempt_outcome w (count_posts t0) webhook_url
        (error_notification (error_message_of e)) = Return response ->
      lambda_handler w event context t0 =
      (Return (failure_result e),
       t1 ++ [EvPrint (error_message_of e);
              EvPost webhook_url (error_notification (error_message_of e))])).
Proof.
  intros Hearly.
  assert (Hraise : stage_raises w t0 e t1).
  { destruct Hearly as [Hfetch | (cost_data & Hfetch & Hformat)];
      [apply fetch_raises | eapply format_raises]; eassumption. }
  destruct (get_cost_data_trace w t0) as (evs1 & Hevs1 & (Hp1 & _) & Hnoposts & _).
  assert (Ht1 : t1 = t0 ++ evs1).
  { destruct Hearly as [Hfetch | (cost_data & Hfetch & _)];
      rewrite Hfetch in Hevs1; exact Hevs1. }
  rewrite (lambda_handler_failure w event context t0 t1 e Hraise). cbn [fst snd].
  split; [reflexivity|]. split.
  - destruct (trace_after_error_trace e t1) as (evs2 & -> & _ & Hcarry).
    exists (evs1 ++ evs2). subst t1. rewrite app_assoc. split; [reflexivity|].
    apply Forall_app. split; [|exact Hcarry].
    eapply Forall_impl; [|exact Hnoposts].
    intros ev Hev Hpost. cbv beta in Hev. congruence.
  - intros webhook_url response Henv Hok. f_equal.
    unfold trace_after_error.
    rewrite (notify_slack_succeeds w _ default_retry_count _ webhook_url [] response Henv).
    + cbn [backoff_events app]. rewrite <- app_assoc. reflexivity.
    + exact I.
    + reflexivity.
    + cbn [List.length]. rewrite Nat.add_0_r, count_posts_app. subst t1.
      rewrite count_posts_app.
      replace (count_posts t0 + count_posts evs1 + count_posts [EvPrint (error_message_of e)])%nat
        with (count_posts t0) by (cbn; lia).
      exact Hok.
Qed.

End HandlerOutcomes.

(** ** The further properties at sample inputs *)

Section FurtherSamples.
Import Float64 Float64Facts.
Local Open Scope list_scope.


(** X2 on services at 0.00, 0.0003, -4.20 and 0.01 dollars: none is
    above the threshold. *)
Lemma format_cost_message_nothing_kept_noise :
  well_formed (sample_data noise_groups) (records_of noise_groups) "$123.46" /\
  kept (records_of noise_groups) = [] /\
  exists message,
    format_cost_message (steady_world noise_groups) (sample_data noise_groups)
      = Return message /\
    total_field message = Some ("*昨日の総利用料金:*" +:+ PyStr.LF +:+ "$0.00") /\
    itemized_text message = Some ("*サービス別内訳:*" +:+ PyStr.LF).
Proof.
  assert (Hwf : well_formed (sample_data noise_groups) (records_of noise_groups) "$123.46")
    by (apply sample_well_formed; vm_compute; reflexivity).
  assert (Hkept : kept (records_of noise_groups) = []) by (vm_compute; reflexivity).
  split; [exact Hwf|]. split; [exact Hkept|].
  exact (format_cost_message_nothing_kept (steady_world noise_groups) _ _ _ Hwf Hkept).
Defined.

Lemma eqb_eqb (x y v : float) : eqb x v = true -> eqb y v = true -> eqb x y = true.
Proof. float_order. Qed.

(** The three amounts of the scenario differ, so no two records have
    one amount. *)
Lemma scenario_ties_reversed (v : float) :
  List.filter (same_amount v) (records_of scenario_groups) =
  List.filter (same_amount v) (records_of scenario_groups_reversed).
Proof.
  remember (of_decimal false 1250 (-2)) as a eqn:Ha.
  remember (of_decimal false 4 (-3)) as b eqn:Hb.
  remember (of_decimal false 725 (-2)) as c eqn:Hc.
  replace (records_of scenario_groups) with [("A", a); ("B", b); ("C", c)]
    by (subst; vm_compute; reflexivity).
  replace (records_of scenario_groups_reversed) with [("C", c); ("B", b); ("A", a)]
    by (subst; vm_compute; reflexivity).
  assert (Hab : eqb a b = false) by (subst; vm_compute; reflexivity).
  assert (Hac : eqb a c = false) by (subst; vm_compute; reflexivity).
  assert (Hbc : eqb b c = false) by (subst; vm_compute; reflexivity).
  clear Ha Hb Hc.
  cbn [List.filter]. unfold same_amount. cbn [snd].
  destruct (eqb a v) eqn:Hav, (eqb b v) eqn:Hbv, (eqb c v) eqn:Hcv; try reflexivity;
    exfalso.
  - rewrite (eqb_eqb _ _ _ Hav Hbv) in Hab. discriminate.
  - rewrite (eqb_eqb _ _ _ Hav Hbv) in Hab. discriminate.
  - rewrite (eqb_eqb _ _ _ Hav Hcv) in Hac. discriminate.
  - rewrite (eqb_eqb _ _ _ Hbv Hcv) in Hbc. discriminate.
Qed.

(** X3 on the scenario and the scenario in the opposite order. *)
Lemma format_cost_message_order_independent_reversed :
  Permutation (records_of scenario_groups) (records_of scenario_groups_reversed) /\
  format_cost_message (steady_world scenario_groups) (sample_data scenario_groups) =
  format_cost_message (steady_world scenario_groups) (sample_data scenario_groups_reversed).
Proof.
  assert (Hperm : Permutation (records_of scenario_groups)
                    (records_of scenario_groups_reversed)).
  { replace (records_of scenario_groups_reversed) with (rev (records_of scenario_groups))
      by (vm_compute; reflexivity).
    apply Permutation_rev. }
  split; [exact Hperm|].
  apply (format_cost_message_order_independent (steady_world scenario_groups)
           _ _ (records_of scenario_groups) (records_of scenario_groups_reversed)
           "$123.46").
  - apply sample_well_formed. vm_compute. reflexivity.
  - apply sample_well_formed. vm_compute. reflexivity.
  - exact Hperm.
  - exact scenario_ties_reversed.
Defined.

(** X6 where the webhook answers 304. *)
Lemma notify_slack_accepts_other_status_not_modified :
  notify_slack not_modified_world (error_notification "probe") 3 [] =
  (Return (Some not_modified_response), [EvPost sample_url (error_notification "probe")]).
Proof.
  apply (notify_slack_accepts_other_status not_modified_world
           (error_notification "probe") 3 [] sample_url not_modified_response).
  - reflexivity.
  - lia.
  - reflexivity.
  - left. vm_compute. reflexivity.
Defined.

(** X9 where the environment is empty and Cost Explorer answers. *)
Lemma lambda_handler_unconfigured_empty_environ :
  lambda_handler
    (unconfigured_world (daily_of scenario_groups) (Return sample_forecast)
       (fun _ => Return ok_response)) tt tt [] =
  (Return {| statusCode := 500;
             body := Json.dumps "Error occurred: 'SLACK_WEBHOOK_URL'" |},
   [ EvGetCostAndUsage; EvGetCostForecast;
     EvPrint "Error occurred: 'SLACK_WEBHOOK_URL'";
     EvPrint "Failed to send error notification to Slack" ]).
Proof.
  destruct (lambda_handler_unconfigured
              (unconfigured_world (daily_of scenario_groups) (Return sample_forecast)
                 (fun _ => Return ok_response)) tt tt [])
    as (e & t1 & Hrun & _ & _ & Hkey); [reflexivity|].
  rewrite (Hkey (sample_data scenario_groups)
             (report (unconfigured_world (daily_of scenario_groups)
                        (Return sample_forecast) (fun _ => Return ok_response))
                scenario_ranked "$123.46")
             [EvGetCostAndUsage; EvGetCostForecast]) in Hrun
    by (vm_compute; reflexivity).
  rewrite Hrun. f_equal.
  assert (Hlen : t1 = [EvGetCostAndUsage; EvGetCostForecast]).
  { apply (f_equal snd) in Hrun. cbn [snd] in Hrun.
    apply (app_inv_tail
             [EvPrint (error_message_of (KeyError "SLACK_WEBHOOK_URL"));
              EvPrint "Failed to send error notification to Slack"]).
    rewrite <- Hrun. vm_compute. reflexivity. }
  rewrite Hlen. reflexivity.
Defined.

(** X10 where the daily-cost query is refused and the webhook accepts
    the POST. *)
Lemma lambda_handler_early_failure_refused :
  lambda_handler denied_world tt tt [] =
  (Return (failure_result access_denied),
   [ EvGetCostAndUsage;
     EvPrint ("Unexpected error: " +:+ str_exn access_denied);
     EvPrint (error_message_of access_denied);
     EvPost sample_url (error_notification (error_message_of access_denied)) ]).
Proof.
  destruct (lambda_handler_early_failure denied_world tt tt []
              [EvGetCostAndUsage; EvPrint ("Unexpected error: " +:+ str_exn access_denied)]
              access_denied) as (_ & _ & Hone).
  - left. vm_compute. reflexivity.
  - rewrite (Hone sample_url ok_response); [reflexivity | reflexivity |].
    vm_compute. reflexivity.
Defined.

End FurtherSamples.
